(** * Resume screening workflow: a shallow embedding of [chains.py] and
      [workflow.py], and the properties of the per-resume pipeline.

    The Python code is dynamically typed and talks to two collaborators (a PDF
    reader and a text-generation oracle).  The embedding keeps both aspects:
    - run-time values are the JSON-shaped objects the oracle's output parser
      can produce, and every Python operation the code applies to them
      ([in], [.get], [<], slicing, truth testing) is written out together with
      the exception it raises on the wrong kind of object;
    - the collaborators are parameters acting on an abstract [world], and the
      code is written in a small state-and-exception monad over it. *)

From Stdlib Require Import QArith.
From stdpp Require Import gmap strings list fin_maps.

Local Open Scope string_scope.
Local Open Scope Z_scope.

(** ** Run-time values *)

(** A Python [float]: [json.loads] also accepts the three non-finite
    literals. *)
Inductive pyfloat : Type :=
| Finite (q : Q)
| PosInf
| NegInf
| NaN.

Set Warnings "-register-all".

(** What [JsonOutputParser] can hand back, and therefore what may sit in the
    [Any]-typed slots of the state. *)
Inductive value : Type :=
| VNone
| VBool (b : bool)
| VInt (z : Z)
| VFloat (f : pyfloat)
| VStr (s : string)
| VList (l : list value)
| VDict (m : gmap string value).

(** Collaborator failures are told apart by origin, so that transport and
    parse failures of the oracle can be distinguished. *)
Inductive failure_class : Type :=
| ReadFailure        (* the PDF reader *)
| TransportFailure   (* get_llm, network, quota: the call itself *)
| ParseFailure       (* the output parser rejected the oracle's text *)
| FileFailure.       (* the scratch file *)

(** Exceptions (all of them subclasses of [Exception]). *)
Inductive exc : Type :=
| External (c : failure_class) (msg : string)
| AttributeError (v : value)        (* [v.get]: v is not a dict *)
| NotIterable (v : value)           (* ["error" in v] *)
| BadSubscript (v : value)          (* [v['error']] or [v[:3]] *)
| KeyError (k : string)
| NotOrdered (v : value)            (* [v < 50] *)
| GraphRecursionError
| InvalidGraph.

Inductive outcome (A : Type) : Type :=
| Ret (a : A)
| Raise (e : exc).
Arguments Ret {A} a.
Arguments Raise {A} e.

(** ** The state-and-exception monad *)

Definition M (T A : Type) : Type := T -> outcome A * T.

Definition ret {T A} (a : A) : M T A := fun t => (Ret a, t).

Definition raise {T A} (e : exc) : M T A := fun t => (Raise e, t).

Definition bind {T A B} (c : M T A) (k : A -> M T B) : M T B :=
  fun t => match c t with
           | (Ret a, t') => k a t'
           | (Raise e, t') => (Raise e, t')
           end.

Notation "'let*' x ':=' c 'in' k" := (bind c (fun x => k))
  (at level 10, x name, c at level 100, k at level 200).
Notation "c '>>' k" := (bind c (fun _ => k))
  (at level 90, right associativity).

(** [try: body except Exception as e: handler e].  Whatever the body did to
    the store before raising stays done. *)
Definition try_except {T A} (body : M T A) (handler : exc -> M T A) : M T A :=
  fun t => match body t with
           | (Ret a, t') => (Ret a, t')
           | (Raise e, t') => handler e t'
           end.

(** [try: body finally: cleanup]. *)
Definition try_finally {T A} (body : M T A) (cleanup : M T unit) : M T A :=
  fun t => match body t with
           | (r, t') =>
               match cleanup t' with
               | (Ret _, t'') => (r, t'')
               | (Raise e, t'') => (Raise e, t'')
               end
           end.

Definition lift_outcome {T A} (o : outcome A) : M T A := fun t => (o, t).

(** ** Python operations on values *)

(** [bool(v)]. *)
Definition truthy (v : value) : bool :=
  match v with
  | VNone => false
  | VBool b => b
  | VInt z => negb (z =? 0)
  | VFloat (Finite q) => negb (Qeq_bool q 0)
  | VFloat _ => true
  | VStr s => negb (String.eqb s "")
  | VList l => match l with [] => false | _ => true end
  | VDict m => negb (bool_decide (m = ∅))
  end.

(** [sub in s] for two strings. *)
Fixpoint str_contains (sub s : string) : bool :=
  String.prefix sub s ||
  match s with
  | EmptyString => false
  | String _ s' => str_contains sub s'
  end.

(** [k in v] for a string [k]. *)
Definition py_in (k : string) (v : value) : outcome bool :=
  match v with
  | VDict m => Ret (bool_decide (is_Some (m !! k)))
  | VList l => Ret (existsb (fun x => match x with
                                      | VStr s => String.eqb k s
                                      | _ => false
                                      end) l)
  | VStr s => Ret (str_contains k s)
  | _ => Raise (NotIterable v)
  end.

(** [v[k]] for a string [k]. *)
Definition py_getitem (v : value) (k : string) : outcome value :=
  match v with
  | VDict m => match m !! k with
               | Some x => Ret x
               | None => Raise (KeyError k)
               end
  | _ => Raise (BadSubscript v)
  end.

(** [v.get(k, d)]. *)
Definition py_get (v : value) (k : string) (d : value) : outcome value :=
  match v with
  | VDict m => Ret (default d (m !! k))
  | _ => Raise (AttributeError v)
  end.

(** [v < n] for an integer literal [n]. *)
Definition py_lt (v : value) (n : Z) : outcome bool :=
  match v with
  | VBool b => Ret ((if b then 1 else 0) <? n)
  | VInt z => Ret (z <? n)
  | VFloat (Finite q) => Ret (negb (Qle_bool (inject_Z n) q))
  | VFloat NegInf => Ret true
  | VFloat _ => Ret false
  | _ => Raise (NotOrdered v)
  end.

Fixpoint chars (s : string) : list value :=
  match s with
  | EmptyString => []
  | String a s' => VStr (String a EmptyString) :: chars s'
  end.

(** The items visited by [for x in v[:n]]. *)
Definition py_slice_items (v : value) (n : nat) : outcome (list value) :=
  match v with
  | VList l => Ret (take n l)
  | VStr s => Ret (take n (chars s))
  | _ => Raise (BadSubscript v)
  end.

(** [str.isspace] on the code points below 256. *)
Definition is_space (a : Ascii.ascii) : bool :=
  let n := Ascii.nat_of_ascii a in
  ((9 <=? n) && (n <=? 13) || (28 <=? n) && (n <=? 32)
   || (n =? 133) || (n =? 160))%nat.

Fixpoint lstrip (s : string) : string :=
  match s with
  | EmptyString => EmptyString
  | String a s' => if is_space a then lstrip s' else s
  end.

Fixpoint rstrip (s : string) : string :=
  match s with
  | EmptyString => EmptyString
  | String a s' =>
      match rstrip s' with
      | EmptyString => if is_space a then EmptyString else String a EmptyString
      | r => String a r
      end
  end.

Definition newline : string := String (Ascii.ascii_of_nat 10) EmptyString.

(** [s.strip()]. *)
Definition strip (s : string) : string := rstrip (lstrip s).

(** ** The state record ([ScreeningState]) *)

(** Every key is present from [process_resume] on, so the TypedDict is a
    record.  The slots the code fills from oracle output hold a [value]; the
    others are only ever assigned strings. *)
Record ScreeningState : Type := {
  jd : string;
  resume_file_path : string;
  resume_text : string;
  resume_data : value;
  match_data : value;
  score : value;
  reasons : value;
  suggestions : value;
  candidate_name : string;
  error : string
}.

Definition with_resume_text (x : string) (st : ScreeningState) : ScreeningState :=
  {| jd := jd st; resume_file_path := resume_file_path st; resume_text := x;
     resume_data := resume_data st; match_data := match_data st;
     score := score st; reasons := reasons st; suggestions := suggestions st;
     candidate_name := candidate_name st; error := error st |}.

Definition with_resume_data (x : value) (st : ScreeningState) : ScreeningState :=
  {| jd := jd st; resume_file_path := resume_file_path st;
     resume_text := resume_text st;
     resume_data := x; match_data := match_data st;
     score := score st; reasons := reasons st; suggestions := suggestions st;
     candidate_name := candidate_name st; error := error st |}.

Definition with_match_data (x : value) (st : ScreeningState) : ScreeningState :=
  {| jd := jd st; resume_file_path := resume_file_path st;
     resume_text := resume_text st;
     resume_data := resume_data st; match_data := x;
     score := score st; reasons := reasons st; suggestions := suggestions st;
     candidate_name := candidate_name st; error := error st |}.

Definition with_score (x : value) (st : ScreeningState) : ScreeningState :=
  {| jd := jd st; resume_file_path := resume_file_path st;
     resume_text := resume_text st;
     resume_data := resume_data st; match_data := match_data st;
     score := x; reasons := reasons st; suggestions := suggestions st;
     candidate_name := candidate_name st; error := error st |}.

Definition with_reasons (x : value) (st : ScreeningState) : ScreeningState :=
  {| jd := jd st; resume_file_path := resume_file_path st;
     resume_text := resume_text st;
     resume_data := resume_data st; match_data := match_data st;
     score := score st; reasons := x; suggestions := suggestions st;
     candidate_name := candidate_name st; error := error st |}.

Definition with_suggestions (x : value) (st : ScreeningState) : ScreeningState :=
  {| jd := jd st; resume_file_path := resume_file_path st;
     resume_text := resume_text st;
     resume_data := resume_data st; match_data := match_data st;
     score := score st; reasons := reasons st; suggestions := x;
     candidate_name := candidate_name st; error := error st |}.

Definition with_error (x : string) (st : ScreeningState) : ScreeningState :=
  {| jd := jd st; resume_file_path := resume_file_path st;
     resume_text := resume_text st;
     resume_data := resume_data st; match_data := match_data st;
     score := score st; reasons := reasons st; suggestions := suggestions st;
     candidate_name := candidate_name st; error := x |}.

(** ** The collaborators *)

(** Everything the code calls but does not define.  [repr] is [str()] on the
    values that are not strings and [builtin_msg] is [str(e)] for the
    exceptions the interpreter raises itself; their exact text is not fixed
    here. *)
Record Env (world : Type) : Type := {
  loader_load : string -> M world (list string);
      (* PyPDFLoader(path).load(), as the page contents *)
  get_llm : M world unit;
      (* raises ValueError when GOOGLE_API_KEY is missing *)
  invoke_extraction : string -> M world value;
  invoke_matching : string -> value -> value -> value -> M world value;
  invoke_scoring : string -> value -> value -> value -> M world value;
      (* (prompt | llm | JsonOutputParser()).invoke(...) *)
  write_temp : string -> M world string;
      (* NamedTemporaryFile(delete=False): write the bytes, give the path *)
  remove_temp : string -> M world unit;
      (* if os.path.exists(p): os.remove(p) *)
  repr : value -> string;
  builtin_msg : exc -> string
}.
Arguments loader_load {world} _ _ _.
Arguments get_llm {world} _ _.
Arguments invoke_extraction {world} _ _ _.
Arguments invoke_matching {world} _ _ _ _ _ _.
Arguments invoke_scoring {world} _ _ _ _ _ _.
Arguments write_temp {world} _ _ _.
Arguments remove_temp {world} _ _ _.
Arguments repr {world} _ _.
Arguments builtin_msg {world} _ _.

Section Program.

Context {world : Type} (env : Env world).

(** [str(v)], as an f-string renders [{v}]. *)
Definition py_str (v : value) : string :=
  match v with
  | VStr s => s
  | _ => repr env v
  end.

(** [str(e)]. *)
Definition exc_str (e : exc) : string :=
  match e with
  | External _ msg => msg
  | _ => builtin_msg env e
  end.

(** ** chains.py *)

Definition extraction_failed (msg : string) : value :=
  VDict {[ "skills" := VList []; "experience" := VList [];
           "education" := VList []; "error" := VStr msg ]}.

Definition matching_failed (msg : string) : value :=
  VDict {[ "matches" := VList []; "gaps" := VList []; "error" := VStr msg ]}.

Definition scoring_failed (msg : string) : value :=
  VDict {[ "score" := VInt 0; "reasons" := VList [VStr "Error in scoring"];
           "suggestions" := VList []; "error" := VStr msg ]}.

(** The [try] blocks of the three wrappers. *)
Definition extract_resume_data_try (resume_text : string) : M world value :=
  get_llm env >>
  invoke_extraction env resume_text.

Definition match_to_jd_try (jd : string) (resume_data : value) : M world value :=
  get_llm env >>
  let* skills := lift_outcome (py_get resume_data "skills" (VList [])) in
  let* experience := lift_outcome (py_get resume_data "experience" (VList [])) in
  let* education := lift_outcome (py_get resume_data "education" (VList [])) in
  invoke_matching env jd skills experience education.

Definition score_candidate_try (jd : string) (resume_data match_data : value)
  : M world value :=
  get_llm env >>
  let* matches := lift_outcome (py_get match_data "matches" (VList [])) in
  let* gaps := lift_outcome (py_get match_data "gaps" (VList [])) in
  let* experience := lift_outcome (py_get resume_data "experience" (VList [])) in
  invoke_scoring env jd matches gaps experience.

Definition extract_resume_data (resume_text : string) : M world value :=
  try_except (extract_resume_data_try resume_text)
             (fun e => ret (extraction_failed (exc_str e))).

Definition match_to_jd (jd : string) (resume_data : value) : M world value :=
  try_except (match_to_jd_try jd resume_data)
             (fun e => ret (matching_failed (exc_str e))).

Definition score_candidate (jd : string) (resume_data match_data : value)
  : M world value :=
  try_except (score_candidate_try jd resume_data match_data)
             (fun e => ret (scoring_failed (exc_str e))).

(** ** workflow.py: the stages *)

(** A stage runs on the state dict it was handed and on the world. *)
Definition N (A : Type) : Type := M (ScreeningState * world) A.

Definition get_state : N ScreeningState :=
  fun t => (Ret (fst t), t).

Definition assign (f : ScreeningState -> ScreeningState) : N unit :=
  fun t => (Ret tt, (f (fst t), snd t)).

(** A call that does not see the state dict. *)
Definition call {A} (c : M world A) : N A :=
  fun t => match c (snd t) with
           | (r, w') => (r, (fst t, w'))
           end.

Definition load_resume : N ScreeningState :=
  try_except
    (let* st := get_state in
     let* pages := call (loader_load env (resume_file_path st)) in
     let resume_text := String.concat newline pages in
     if negb (truthy (VStr (strip resume_text)))
     then assign (with_error "Empty PDF or failed to extract text") >>
          assign (with_resume_text "")
     else assign (with_resume_text resume_text) >>
          assign (with_error ""))
    (fun e =>
       assign (with_error ("PDF loading error: " ++ exc_str e)) >>
       assign (with_resume_text "")) >>
  get_state.

Definition extract_data : N ScreeningState :=
  let* st := get_state in
  if truthy (VStr (error st)) then ret st
  else
    try_except
      (let* resume_data := call (extract_resume_data (resume_text st)) in
       assign (with_resume_data resume_data) >>
       let* has_error := lift_outcome (py_in "error" resume_data) in
       if has_error
       then let* e := lift_outcome (py_getitem resume_data "error") in
            assign (with_error ("Extraction error: " ++ py_str e))
       else ret tt)
      (fun e =>
         assign (with_error ("Data extraction error: " ++ exc_str e)) >>
         assign (with_resume_data (VDict ∅))) >>
    get_state.

Definition match_jd : N ScreeningState :=
  let* st := get_state in
  if truthy (VStr (error st)) then ret st
  else
    try_except
      (let* match_data := call (match_to_jd (jd st) (resume_data st)) in
       assign (with_match_data match_data) >>
       let* has_error := lift_outcome (py_in "error" match_data) in
       if has_error
       then let* e := lift_outcome (py_getitem match_data "error") in
            assign (with_error ("Matching error: " ++ py_str e))
       else ret tt)
      (fun e =>
         assign (with_error ("JD matching error: " ++ exc_str e)) >>
         assign (with_match_data (VDict ∅))) >>
    get_state.

Definition score_candidate_node : N ScreeningState :=
  let* st := get_state in
  if truthy (VStr (error st))
  then assign (with_score (VInt 0)) >>
       assign (with_reasons (VList [VStr ("Processing failed: " ++ error st)])) >>
       assign (with_suggestions (VList [])) >>
       get_state
  else
    try_except
      (let* score_data :=
         call (score_candidate (jd st) (resume_data st) (match_data st)) in
       let* s := lift_outcome (py_get score_data "score" (VInt 0)) in
       assign (with_score s) >>
       let* r := lift_outcome (py_get score_data "reasons" (VList [])) in
       assign (with_reasons r) >>
       let* g := lift_outcome (py_get score_data "suggestions" (VList [])) in
       assign (with_suggestions g) >>
       let* has_error := lift_outcome (py_in "error" score_data) in
       if has_error
       then let* e := lift_outcome (py_getitem score_data "error") in
            assign (with_error ("Scoring error: " ++ py_str e))
       else ret tt)
      (fun e =>
         assign (with_error ("Candidate scoring error: " ++ exc_str e)) >>
         assign (with_score (VInt 0)) >>
         assign (with_reasons (VList [VStr ("Scoring failed: " ++ exc_str e)])) >>
         assign (with_suggestions (VList []))) >>
    get_state.

(** The conditional edge.  It only reads the state. *)
Definition should_suggest_improvements (st : ScreeningState) : outcome string :=
  match py_lt (score st) 50 with
  | Ret true => Ret "suggest"
  | Ret false => Ret "end"
  | Raise e => Raise e
  end.

Definition suggest_improvements : N ScreeningState :=
  let* st := get_state in
  (if negb (truthy (suggestions st))
   then let* gaps := lift_outcome (py_get (match_data st) "gaps" (VList [])) in
        if truthy gaps
        then let* items := lift_outcome (py_slice_items gaps 3) in
             assign (with_suggestions
                       (VList (map (fun gap =>
                                      VStr ("Develop skills/experience in: "
                                            ++ py_str gap)) items)))
        else assign (with_suggestions
                       (VList [VStr "Consider gaining more relevant experience"]))
   else ret tt) >>
  get_state.

(** ** The workflow engine *)

(** What the code uses of [StateGraph]: named nodes, plain edges, conditional
    edges (a path function and the map from its answers to node names) and an
    entry point. *)
Record StateGraph : Type := {
  nodes : gmap string (N ScreeningState);
  edges : gmap string string;
  branches : gmap string ((ScreeningState -> outcome string) * gmap string string);
  entry_point : option string
}.

Definition END : string := "__end__".

Definition new_graph : StateGraph :=
  {| nodes := ∅; edges := ∅; branches := ∅; entry_point := None |}.

Definition add_node (name : string) (f : N ScreeningState) (g : StateGraph)
  : StateGraph :=
  {| nodes := <[name := f]> (nodes g); edges := edges g;
     branches := branches g; entry_point := entry_point g |}.

Definition set_entry_point (name : string) (g : StateGraph) : StateGraph :=
  {| nodes := nodes g; edges := edges g;
     branches := branches g; entry_point := Some name |}.

Definition add_edge (src dst : string) (g : StateGraph) : StateGraph :=
  {| nodes := nodes g; edges := <[src := dst]> (edges g);
     branches := branches g; entry_point := entry_point g |}.

Definition add_conditional_edges (src : string)
    (path : ScreeningState -> outcome string) (path_map : gmap string string)
    (g : StateGraph) : StateGraph :=
  {| nodes := nodes g; edges := edges g;
     branches := <[src := (path, path_map)]> (branches g);
     entry_point := entry_point g |}.

(** A node is called on the current state; the dict it returns becomes the
    current state. *)
Definition call_node (f : N ScreeningState) (st : ScreeningState)
  : M world ScreeningState :=
  fun w => match f (st, w) with
           | (r, t) => (r, snd t)
           end.

Definition next_node (g : StateGraph) (current : string) (st : ScreeningState)
  : outcome string :=
  match edges g !! current with
  | Some n => Ret n
  | None =>
      match branches g !! current with
      | Some (path, path_map) =>
          match path st with
          | Ret r => match path_map !! r with
                     | Some n => Ret n
                     | None => Raise (KeyError r)
                     end
          | Raise e => Raise e
          end
      | None => Raise InvalidGraph
      end
  end.

Fixpoint run_from (g : StateGraph) (fuel : nat) (current : string)
    (st : ScreeningState) : M world ScreeningState :=
  if String.eqb current END then ret st
  else
    match fuel with
    | O => raise GraphRecursionError
    | S fuel' =>
        match nodes g !! current with
        | None => raise InvalidGraph
        | Some f =>
            let* st' := call_node f st in
            let* next := lift_outcome (next_node g current st') in
            run_from g fuel' next st'
        end
    end.

(** The engine gives up after this many steps. *)
Definition recursion_limit : nat := 25.

Definition invoke (g : StateGraph) (st : ScreeningState) : M world ScreeningState :=
  match entry_point g with
  | Some n => run_from g recursion_limit n st
  | None => raise InvalidGraph
  end.

Definition create_screening_workflow : StateGraph :=
  let workflow := new_graph in
  let workflow := add_node "load_resume" load_resume workflow in
  let workflow := add_node "extract_data" extract_data workflow in
  let workflow := add_node "match_jd" match_jd workflow in
  let workflow := add_node "score_candidate" score_candidate_node workflow in
  let workflow := add_node "suggest_improvements" suggest_improvements workflow in
  let workflow := set_entry_point "load_resume" workflow in
  let workflow := add_edge "load_resume" "extract_data" workflow in
  let workflow := add_edge "extract_data" "match_jd" workflow in
  let workflow := add_edge "match_jd" "score_candidate" workflow in
  let workflow :=
    add_conditional_edges "score_candidate" should_suggest_improvements
      {[ "suggest" := "suggest_improvements"; "end" := END ]} workflow in
  let workflow := add_edge "suggest_improvements" END workflow in
  workflow.

(** ** The batch runner *)

Definition initial_state (jd resume_file_path candidate_name : string)
  : ScreeningState :=
  {| jd := jd; resume_file_path := resume_file_path; resume_text := "";
     resume_data := VDict ∅; match_data := VDict ∅; score := VInt 0;
     reasons := VList []; suggestions := VList [];
     candidate_name := candidate_name; error := "" |}.

Definition process_resume (jd resume_file_path candidate_name : string)
  : M world value :=
  let workflow := create_screening_workflow in
  let* result := invoke workflow (initial_state jd resume_file_path candidate_name) in
  let* matches := lift_outcome (py_get (match_data result) "matches" (VList [])) in
  let* gaps := lift_outcome (py_get (match_data result) "gaps" (VList [])) in
  ret (VDict {[ "candidate" := VStr candidate_name;
                "score" := score result;
                "reasons" := reasons result;
                "suggestions" := suggestions result;
                "matches" := matches;
                "gaps" := gaps;
                "error" := VStr (error result) ]}).

(** The [for] loop of [process_multiple_resumes], [results] being the list
    built so far. *)
Fixpoint process_loop (jd : string) (resume_files : list (string * string))
    (results : list value) : M world (list value) :=
  match resume_files with
  | [] => ret results
  | (file_name, file_content) :: rest =>
      let* tmp_path := write_temp env file_content in
      let* results' :=
        try_finally
          (let* result := process_resume jd tmp_path file_name in
           ret ((results ++ [result])%list))
          (remove_temp env tmp_path) in
      process_loop jd rest results'
  end.

Definition process_multiple_resumes (jd : string)
    (resume_files : list (string * string)) : M world (list value) :=
  process_loop jd resume_files [].

End Program.

Arguments StateGraph world : clear implicits.

(** ** chains.py: [get_llm] *)

Definition key_not_found : string :=
  "GOOGLE_API_KEY not found in environment variables. Please add it to your .env file or enter it in the Streamlit sidebar.".

Section Frontend.

Context {world : Type}.

(** [get_llm], over the two things it uses: the environment variable and the
    constructor of the client.  [not api_key] holds of an unset variable and
    of an empty one. *)
Definition get_llm_of (getenv : string -> world -> option string)
    (client : string -> M world unit) : M world unit :=
  fun w =>
    match getenv "GOOGLE_API_KEY" w with
    | Some api_key =>
        if negb (truthy (VStr api_key))
        then raise (External TransportFailure key_not_found) w
        else client api_key w
    | None => raise (External TransportFailure key_not_found) w
    end.

(** The collaborators [env], with [get_llm] as chains.py defines it. *)
Definition with_key_lookup (env : Env world)
    (getenv : string -> world -> option string)
    (client : string -> M world unit) : Env world :=
  {| loader_load := loader_load env;
     get_llm := get_llm_of getenv client;
     invoke_extraction := invoke_extraction env;
     invoke_matching := invoke_matching env;
     invoke_scoring := invoke_scoring env;
     write_temp := write_temp env;
     remove_temp := remove_temp env;
     repr := repr env;
     builtin_msg := builtin_msg env |}.

(** ** app.py *)

(** [v >= n], and [n <= v], for an integer literal [n]. *)
Definition py_ge (v : value) (n : Z) : outcome bool :=
  match v with
  | VBool b => Ret (n <=? (if b then 1 else 0))
  | VInt z => Ret (n <=? z)
  | VFloat (Finite q) => Ret (Qle_bool (inject_Z n) q)
  | VFloat PosInf => Ret true
  | VFloat _ => Ret false
  | _ => Raise (NotOrdered v)
  end.

(** The three labels of the summary table: "Strong Fit", "Moderate Fit" and
    "Weak Fit". *)
Inductive fit : Type := StrongFit | ModerateFit | WeakFit.

(** The "Status" column, from [r["score"]]. *)
Definition fit_status (s : value) : outcome fit :=
  match py_ge s 70 with
  | Ret true => Ret StrongFit
  | Ret false =>
      match py_ge s 50 with
      | Ret true => Ret ModerateFit
      | Ret false => Ret WeakFit
      | Raise e => Raise e
      end
  | Raise e => Raise e
  end.

(** [sum(1 for s in scores if test(s))]. *)
Fixpoint count_if (test : value -> outcome bool) (scores : list value)
  : outcome Z :=
  match scores with
  | [] => Ret 0
  | s :: rest =>
      match test s with
      | Ret b =>
          match count_if test rest with
          | Ret n => Ret ((if b then 1 else 0) + n)
          | Raise e => Raise e
          end
      | Raise e => Raise e
      end
  end.

Definition is_strong (s : value) : outcome bool := py_ge s 70.

(** [50 <= s < 70]: the second comparison only if the first holds. *)
Definition is_moderate (s : value) : outcome bool :=
  match py_ge s 50 with
  | Ret true => py_lt s 70
  | r => r
  end.

Definition is_weak (s : value) : outcome bool := py_lt s 50.

(** The "Fit Distribution": the three counts, in the order they are
    computed. *)
Definition fit_distribution (scores : list value) : outcome (Z * Z * Z) :=
  match count_if is_strong scores with
  | Ret strong =>
      match count_if is_moderate scores with
      | Ret moderate =>
          match count_if is_weak scores with
          | Ret weak => Ret (strong, moderate, weak)
          | Raise e => Raise e
          end
      | Raise e => Raise e
      end
  | Raise e => Raise e
  end.

(** What the page shows after a click on "Screen Resumes". *)
Inductive screening_message : Type :=
| TooManyResumes              (* Maximum 10 resumes allowed per session *)
| FileTooLarge                (* One or more files exceed 5MB limit *)
| ScreeningComplete (n : Z)   (* Screening complete! Processed n resume(s) *)
| ScreeningError (e : exc).   (* Error during screening: str(e) *)

(** [len(b)] of a byte string. *)
Definition py_len (b : string) : Z := Z.of_nat (String.length b).

(** The block under [if screen_button:].  The first component of the store is
    [st.session_state["results"]], [None] while the key is not set. *)
Definition on_screen_button (env : Env world) (jd_text : string)
    (resume_files : list (string * string))
  : M (option (list value) * world) screening_message :=
  if Z.of_nat (length resume_files) >? 10 then ret TooManyResumes
  else if existsb (fun f => py_len (snd f) >? 5 * 1024 * 1024) resume_files
  then ret FileTooLarge
  else
    let resume_data := map (fun f => (fst f, snd f)) resume_files in
    try_except
      (let* results :=
         (fun t => match process_multiple_resumes env jd_text resume_data (snd t) with
                   | (r, w') => (r, (fst t, w'))
                   end) in
       (fun t => (Ret tt, (Some results, snd t))) >>
       ret (ScreeningComplete (Z.of_nat (length results))))
      (fun e => ret (ScreeningError e)).

End Frontend.

(** ** Scripted environments *)

(** A collaborator set whose answers are fixed in advance: the reader's
    pages, and the result of each of the three oracle calls. *)
Definition scripted (pages : outcome (list string))
    (extraction matching scoring : outcome value) : Env unit :=
  {| loader_load := fun _ => lift_outcome pages;
     get_llm := ret tt;
     invoke_extraction := fun _ => lift_outcome extraction;
     invoke_matching := fun _ _ _ _ => lift_outcome matching;
     invoke_scoring := fun _ _ _ _ => lift_outcome scoring;
     write_temp := fun _ => ret "resume.pdf";
     remove_temp := fun _ => ret tt;
     repr := fun _ => "<object>";
     builtin_msg := fun _ => "<interpreter error>" |}.

Definition a_profile : value :=
  VDict {[ "skills" := VList [VStr "Python"];
           "experience" := VList [];
           "education" := VList [] ]}.

Definition five_gaps_map : gmap string value :=
  {[ "matches" := VList [];
     "gaps" := VList [VStr "Kubernetes"; VStr "AWS"; VStr "Leadership";
                      VStr "Security"; VStr "Testing"] ]}.

Definition five_gaps : value := VDict five_gaps_map.

Definition score_reply (s : value) : value :=
  VDict {[ "score" := s; "reasons" := VList [VStr "fit"];
           "suggestions" := VList [] ]}.

Definition timeout : exc := External TransportFailure "timeout".

(** Everything answers; the score is 35. *)
Definition env_35 : Env unit :=
  scripted (Ret ["Python developer"]) (Ret a_profile) (Ret five_gaps)
           (Ret (score_reply (VInt 35))).

(** The oracle scores 150. *)
Definition env_150 : Env unit :=
  scripted (Ret ["Python developer"]) (Ret a_profile) (Ret five_gaps)
           (Ret (score_reply (VInt 150))).

(** The oracle writes the score as a text. *)
Definition env_percent : Env unit :=
  scripted (Ret ["Python developer"]) (Ret a_profile) (Ret five_gaps)
           (Ret (score_reply (VStr "85%"))).

(** The reader finds only white space. *)
Definition env_blank : Env unit :=
  scripted (Ret [" "; ""]) (Ret a_profile) (Ret five_gaps)
           (Ret (score_reply (VInt 35))).

(** The extraction call times out. *)
Definition env_extraction_timeout : Env unit :=
  scripted (Ret ["Python developer"]) (Raise timeout) (Ret five_gaps)
           (Ret (score_reply (VInt 35))).

(** The extraction chain answers with a bare number. *)
Definition env_extraction_number : Env unit :=
  scripted (Ret ["Python developer"]) (Ret (VInt 5)) (Ret five_gaps)
           (Ret (score_reply (VInt 35))).

(** The scoring call times out. *)
Definition env_scoring_timeout : Env unit :=
  scripted (Ret ["Python developer"]) (Ret a_profile) (Ret five_gaps)
           (Raise timeout).



(** The matching call times out. *)
Definition env_matching_timeout : Env unit :=
  scripted (Ret ["Python developer"]) (Ret a_profile) (Raise timeout)
           (Ret (score_reply (VInt 35))).

(** The matching chain answers with a list. *)
Definition env_matching_list : Env unit :=
  scripted (Ret ["Python developer"]) (Ret a_profile)
           (Ret (VList [VStr "Python"])) (Ret (score_reply (VInt 35))).

(** [env_35] without an API key in the environment. *)
Definition env_no_key : Env unit :=
  with_key_lookup env_35 (fun _ _ => None) (fun _ => ret tt).

Definition fresh : ScreeningState :=
  initial_state "Needs Python, 3+ years" "resume.pdf" "alice.pdf".

(** [fresh] after the first three stages of [env_35] and its like. *)
Definition matched : ScreeningState :=
  with_match_data five_gaps
    (with_resume_data a_profile (with_resume_text "Python developer" fresh)).

Definition three_suggestions : value :=
  VList [VStr "Develop skills/experience in: Kubernetes";
         VStr "Develop skills/experience in: AWS";
         VStr "Develop skills/experience in: Leadership"].

(** The final states of four of the scripts. *)
Definition final_35 : ScreeningState :=
  with_suggestions three_suggestions
    (with_reasons (VList [VStr "fit"]) (with_score (VInt 35) matched)).

Definition final_150 : ScreeningState :=
  with_reasons (VList [VStr "fit"]) (with_score (VInt 150) matched).

Definition final_blank : ScreeningState :=
  with_suggestions (VList [VStr "Consider gaining more relevant experience"])
    (with_reasons
       (VList [VStr "Processing failed: Empty PDF or failed to extract text"])
       (with_error "Empty PDF or failed to extract text" fresh)).



Definition record_35 : value :=
  VDict {[ "candidate" := VStr "alice.pdf";
           "score" := VInt 35;
           "reasons" := VList [VStr "fit"];
           "suggestions" := three_suggestions;
           "matches" := VList [];
           "gaps" := VList [VStr "Kubernetes"; VStr "AWS"; VStr "Leadership";
                            VStr "Security"; VStr "Testing"];
           "error" := VStr "" ]}.

Definition two_uploads : list (string * string) :=
  [("alice.pdf", "%PDF-1.4 alice"); ("bob.pdf", "%PDF-1.4 bob")].

(** ** Vocabulary of the statements *)

(** "score < n" and "score >= n" on the values that are numbers to Python
    (a bool counts as 0 or 1).  NaN satisfies neither. *)
Inductive below (n : Z) : value -> Prop :=
| below_bool (b : bool) : (if b then 1 else 0) < n -> below n (VBool b)
| below_int (z : Z) : z < n -> below n (VInt z)
| below_float (q : Q) : (q < inject_Z n)%Q -> below n (VFloat (Finite q))
| below_neginf : below n (VFloat NegInf).

Inductive at_least (n : Z) : value -> Prop :=
| at_least_bool (b : bool) : n <= (if b then 1 else 0) -> at_least n (VBool b)
| at_least_int (z : Z) : n <= z -> at_least n (VInt z)
| at_least_float (q : Q) : (inject_Z n <= q)%Q -> at_least n (VFloat (Finite q))
| at_least_posinf : at_least n (VFloat PosInf).

(** An integer-valued number between 0 and 100. *)
Definition valid_score (v : value) : Prop :=
  exists z : Z, 0 <= z <= 100 /\
    (v = VInt z \/ exists q, v = VFloat (Finite q) /\ (q == inject_Z z)%Q).


(** A number to Python's [<]. *)
Definition is_number (v : value) : Prop :=
  match v with
  | VBool _ | VInt _ | VFloat _ => True
  | _ => False
  end.

(** An object whose ["gaps"], when present, is a list. *)
Definition gaps_listed (v : value) : Prop :=
  exists m : gmap string value,
    v = VDict m /\ forall g, m !! "gaps" = Some g -> exists l, g = VList l.

(** If an object, then one whose ["score"], when present, is a number. *)
Definition score_numeric (v : value) : Prop :=
  forall (m : gmap string value) s,
    v = VDict m -> m !! "score" = Some s -> is_number s.

(** Only white space (or nothing at all). *)
Fixpoint all_space (s : string) : bool :=
  match s with
  | EmptyString => true
  | String a s' => is_space a && all_space s'
  end.

(** A number other than NaN. *)
Definition is_ordered_number (v : value) : Prop :=
  match v with
  | VBool _ | VInt _ => True
  | VFloat f => f <> NaN
  | _ => False
  end.

(** The fallback of SuggestImprovements. *)
Definition generic_suggestion : value :=
  VStr "Consider gaining more relevant experience".

(** The record of a resume that failed with [msg] before any matching was
    done. *)
Definition failure_record (name msg : string) : value :=
  VDict {[ "candidate" := VStr name;
           "score" := VInt 0;
           "reasons" := VList [VStr ("Processing failed: " ++ msg)];
           "suggestions" := VList [generic_suggestion];
           "matches" := VList [];
           "gaps" := VList [];
           "error" := VStr msg ]}.

(** The keys of an output record. *)
Definition record_keys : gset string :=
  {[ "candidate"; "score"; "reasons"; "suggestions"; "matches"; "gaps";
     "error" ]}.

(** [r] is the output record of the upload [file]: an object with exactly
    the seven keys, whose candidate is the file's name. *)
Definition is_record_of (file : string * string) (r : value) : Prop :=
  exists m : gmap string value,
    r = VDict m /\ m !! "candidate" = Some (VStr (fst file))
    /\ dom m = record_keys.

(** * Properties *)

Section Properties.

Context {world : Type} (env : Env world).

Implicit Types (st : ScreeningState) (w : world) (v : value) (e : exc).

Lemma truthy_str_true (s : string) : s <> "" -> truthy (VStr s) = true.
Proof. destruct s; [congruence | reflexivity]. Qed.

Lemma truthy_str_false (s : string) : truthy (VStr s) = false -> s = "".
Proof. destruct s; [reflexivity | discriminate]. Qed.

(** *** What each stage computes *)

(** The stage bodies, unfolded once and for all into a case analysis on what
    the collaborators answer. *)

Ltac unfold_stage :=
  unfold call_node, load_resume, extract_data, match_jd, score_candidate_node,
    suggest_improvements, try_except, bind, get_state, assign, call,
    lift_outcome, ret;
  cbn -[truthy py_in py_getitem py_get py_slice_items strip String.concat
        extract_resume_data match_to_jd score_candidate].

Lemma load_resume_run st w :
  call_node (load_resume env) st w =
  match loader_load env (resume_file_path st) w with
  | (Ret pages, w') =>
      if truthy (VStr (strip (String.concat newline pages)))
      then (Ret (with_error "" (with_resume_text (String.concat newline pages) st)), w')
      else (Ret (with_resume_text ""
                   (with_error "Empty PDF or failed to extract text" st)), w')
  | (Raise e, w') =>
      (Ret (with_resume_text ""
              (with_error ("PDF loading error: " ++ exc_str env e) st)), w')
  end.
Proof.
  unfold_stage.
  destruct (loader_load env (resume_file_path st) w) as [[pages|e] w']; cbn -[truthy strip String.concat];
    [destruct (truthy _) |]; reflexivity.
Qed.

Lemma extract_data_run st w :
  call_node (extract_data env) st w =
  if truthy (VStr (error st)) then (Ret st, w)
  else
    match extract_resume_data env (resume_text st) w with
    | (Ret rd, w') =>
        match py_in "error" rd with
        | Ret true =>
            match py_getitem rd "error" with
            | Ret x =>
                (Ret (with_error ("Extraction error: " ++ py_str env x)
                        (with_resume_data rd st)), w')
            | Raise e =>
                (Ret (with_resume_data (VDict ∅)
                        (with_error ("Data extraction error: " ++ exc_str env e) st)),
                 w')
            end
        | Ret false => (Ret (with_resume_data rd st), w')
        | Raise e =>
            (Ret (with_resume_data (VDict ∅)
                    (with_error ("Data extraction error: " ++ exc_str env e) st)),
             w')
        end
    | (Raise e, w') =>
        (Ret (with_resume_data (VDict ∅)
                (with_error ("Data extraction error: " ++ exc_str env e) st)), w')
    end.
Proof.
  unfold_stage.
  destruct (truthy (VStr (error st))); [reflexivity |].
  unfold_stage.
  destruct (extract_resume_data env (resume_text st) w) as [[rd|e] w'];
    [| reflexivity].
  unfold_stage.
  destruct (py_in "error" rd) as [[|]|e]; [| reflexivity | reflexivity].
  unfold_stage.
  destruct (py_getitem rd "error") as [x|e]; reflexivity.
Qed.

Lemma match_jd_run st w :
  call_node (match_jd env) st w =
  if truthy (VStr (error st)) then (Ret st, w)
  else
    match match_to_jd env (jd st) (resume_data st) w with
    | (Ret md, w') =>
        match py_in "error" md with
        | Ret true =>
            match py_getitem md "error" with
            | Ret x =>
                (Ret (with_error ("Matching error: " ++ py_str env x)
                        (with_match_data md st)), w')
            | Raise e =>
                (Ret (with_match_data (VDict ∅)
                        (with_error ("JD matching error: " ++ exc_str env e) st)),
                 w')
            end
        | Ret false => (Ret (with_match_data md st), w')
        | Raise e =>
            (Ret (with_match_data (VDict ∅)
                    (with_error ("JD matching error: " ++ exc_str env e) st)),
             w')
        end
    | (Raise e, w') =>
        (Ret (with_match_data (VDict ∅)
                (with_error ("JD matching error: " ++ exc_str env e) st)), w')
    end.
Proof.
  unfold_stage.
  destruct (truthy (VStr (error st))); [reflexivity |].
  unfold_stage.
  destruct (match_to_jd env (jd st) (resume_data st) w) as [[md|e] w'];
    [| reflexivity].
  unfold_stage.
  destruct (py_in "error" md) as [[|]|e]; [| reflexivity | reflexivity].
  unfold_stage.
  destruct (py_getitem md "error") as [x|e]; reflexivity.
Qed.

Lemma score_candidate_node_run st w :
  call_node (score_candidate_node env) st w =
  if truthy (VStr (error st))
  then (Ret (with_suggestions (VList [])
               (with_reasons (VList [VStr ("Processing failed: " ++ error st)])
                  (with_score (VInt 0) st))), w)
  else
    let gave_up e :=
      with_suggestions (VList [])
        (with_reasons (VList [VStr ("Scoring failed: " ++ exc_str env e)])
           (with_score (VInt 0)
              (with_error ("Candidate scoring error: " ++ exc_str env e) st))) in
    match score_candidate env (jd st) (resume_data st) (match_data st) w with
    | (Ret (VDict m), w') =>
        let scored :=
          with_suggestions (default (VList []) (m !! "suggestions"))
            (with_reasons (default (VList []) (m !! "reasons"))
               (with_score (default (VInt 0) (m !! "score")) st)) in
        match m !! "error" with
        | Some x => (Ret (with_error ("Scoring error: " ++ py_str env x) scored), w')
        | None => (Ret scored, w')
        end
    | (Ret sd, w') => (Ret (gave_up (AttributeError sd)), w')
    | (Raise e, w') => (Ret (gave_up e), w')
    end.
Proof.
  unfold_stage.
  destruct (truthy (VStr (error st))); [reflexivity |].
  unfold_stage.
  destruct (score_candidate env (jd st) (resume_data st) (match_data st) w)
    as [[sd|e] w']; [| reflexivity].
  destruct sd as [| | | | |l|m]; try reflexivity.
  cbn. destruct (m !! "error") as [x|]; reflexivity.
Qed.

Lemma suggest_improvements_run st w :
  call_node (suggest_improvements env) st w =
  if truthy (suggestions st) then (Ret st, w)
  else
    match py_get (match_data st) "gaps" (VList []) with
    | Ret gaps =>
        if truthy gaps
        then
          match py_slice_items gaps 3 with
          | Ret items =>
              (Ret (with_suggestions
                      (VList (map (fun gap =>
                                     VStr ("Develop skills/experience in: "
                                           ++ py_str env gap)) items)) st), w)
          | Raise e => (Raise e, w)
          end
        else
          (Ret (with_suggestions
                  (VList [VStr "Consider gaining more relevant experience"]) st), w)
    | Raise e => (Raise e, w)
    end.
Proof.
  unfold_stage.
  destruct (truthy (suggestions st)); cbn; [destruct st; reflexivity |].
  unfold_stage.
  destruct (py_get (match_data st) "gaps" (VList [])) as [gaps|e]; [| reflexivity].
  unfold_stage.
  destruct (truthy gaps); [| reflexivity].
  unfold_stage.
  destruct (py_slice_items gaps 3) as [items|e]; reflexivity.
Qed.

(** The wrappers of chains.py turn every exception of their [try] block into
    a reply. *)
Lemma extract_resume_data_run (text : string) w :
  extract_resume_data env text w =
  match extract_resume_data_try env text w with
  | (Ret v, w') => (Ret v, w')
  | (Raise e, w') => (Ret (extraction_failed (exc_str env e)), w')
  end.
Proof. reflexivity. Qed.

Lemma match_to_jd_run (j : string) v w :
  match_to_jd env j v w =
  match match_to_jd_try env j v w with
  | (Ret r, w') => (Ret r, w')
  | (Raise e, w') => (Ret (matching_failed (exc_str env e)), w')
  end.
Proof. reflexivity. Qed.

Lemma score_candidate_run (j : string) (rd md : value) w :
  score_candidate env j rd md w =
  match score_candidate_try env j rd md w with
  | (Ret r, w') => (Ret r, w')
  | (Raise e, w') => (Ret (scoring_failed (exc_str env e)), w')
  end.
Proof. reflexivity. Qed.

(** *** The engine on the screening graph *)

Lemma run_from_END (g : StateGraph world) fuel st w :
  run_from g fuel END st w = (Ret st, w).
Proof. destruct fuel; reflexivity. Qed.

Lemma run_from_step (g : StateGraph world) fuel (cur : string) f st w :
  String.eqb cur END = false ->
  nodes g !! cur = Some f ->
  run_from g (S fuel) cur st w =
  match call_node f st w with
  | (Ret st', w') =>
      match next_node g cur st' with
      | Ret next => run_from g fuel next st' w'
      | Raise e => (Raise e, w')
      end
  | (Raise e, w') => (Raise e, w')
  end.
Proof.
  intros Hcur Hf. cbn [run_from]. rewrite Hcur, Hf.
  unfold bind, lift_outcome.
  destruct (call_node f st w) as [[st'|e] w']; [| reflexivity].
  destruct (next_node g cur st'); reflexivity.
Qed.

(** The graph that [create_screening_workflow] builds, read back. *)
Lemma workflow_entry_point :
  entry_point (create_screening_workflow env) = Some "load_resume".
Proof. reflexivity. Qed.

Lemma workflow_nodes :
  let g := create_screening_workflow env in
  nodes g !! "load_resume" = Some (load_resume env)
  /\ nodes g !! "extract_data" = Some (extract_data env)
  /\ nodes g !! "match_jd" = Some (match_jd env)
  /\ nodes g !! "score_candidate" = Some (score_candidate_node env)
  /\ nodes g !! "suggest_improvements" = Some (suggest_improvements env).
Proof. repeat split; vm_compute; reflexivity. Qed.

Lemma workflow_edges :
  let g := create_screening_workflow env in
  edges g !! "load_resume" = Some "extract_data"
  /\ edges g !! "extract_data" = Some "match_jd"
  /\ edges g !! "match_jd" = Some "score_candidate"
  /\ edges g !! "score_candidate" = None
  /\ edges g !! "suggest_improvements" = Some END.
Proof. repeat split; vm_compute; reflexivity. Qed.

Lemma workflow_branches :
  branches (create_screening_workflow env) !! "score_candidate" =
  Some (should_suggest_improvements,
        {[ "suggest" := "suggest_improvements"; "end" := END ]}).
Proof. vm_compute; reflexivity. Qed.

Lemma next_node_edge (g : StateGraph world) (cur next : string) st :
  edges g !! cur = Some next -> next_node g cur st = Ret next.
Proof. intros H. unfold next_node. rewrite H. reflexivity. Qed.

(** The only edge that looks at the state. *)
Lemma next_node_score_candidate st :
  next_node (create_screening_workflow env) "score_candidate" st =
  match py_lt (score st) 50 with
  | Ret true => Ret "suggest_improvements"
  | Ret false => Ret END
  | Raise e => Raise e
  end.
Proof.
  destruct workflow_edges as (_ & _ & _ & He & _).
  unfold next_node. rewrite He, workflow_branches.
  unfold should_suggest_improvements.
  destruct (py_lt (score st) 50) as [[|]|e]; vm_compute; reflexivity.
Qed.

(** From ScoreCandidate on. *)
Lemma run_from_score_candidate fuel st w :
  run_from (create_screening_workflow env) (S (S fuel)) "score_candidate" st w =
  match call_node (score_candidate_node env) st w with
  | (Ret s4, w4) =>
      match py_lt (score s4) 50 with
      | Ret true => call_node (suggest_improvements env) s4 w4
      | Ret false => (Ret s4, w4)
      | Raise e => (Raise e, w4)
      end
  | (Raise e, w4) => (Raise e, w4)
  end.
Proof.
  destruct workflow_nodes as (_ & _ & _ & Hn4 & Hn5).
  destruct workflow_edges as (_ & _ & _ & _ & He5).
  rewrite (run_from_step _ _ "score_candidate" _ _ _ eq_refl Hn4).
  destruct (call_node (score_candidate_node env) st w) as [[s4|e] w4];
    [| reflexivity].
  rewrite next_node_score_candidate.
  destruct (py_lt (score s4) 50) as [[|]|e]; [| apply run_from_END | reflexivity].
  rewrite (run_from_step _ _ "suggest_improvements" _ _ _ eq_refl Hn5).
  destruct (call_node (suggest_improvements env) s4 w4) as [[s5|e] w5];
    [| reflexivity].
  rewrite (next_node_edge _ _ _ _ He5).
  apply run_from_END.
Qed.

(** A run of the compiled graph is the five stages in sequence, the last one
    behind the test on the score; the step limit is never reached. *)
Lemma invoke_run st w :
  invoke (create_screening_workflow env) st w =
  match call_node (load_resume env) st w with
  | (Ret s1, w1) =>
      match call_node (extract_data env) s1 w1 with
      | (Ret s2, w2) =>
          match call_node (match_jd env) s2 w2 with
          | (Ret s3, w3) =>
              match call_node (score_candidate_node env) s3 w3 with
              | (Ret s4, w4) =>
                  match py_lt (score s4) 50 with
                  | Ret true => call_node (suggest_improvements env) s4 w4
                  | Ret false => (Ret s4, w4)
                  | Raise e => (Raise e, w4)
                  end
              | (Raise e, w4) => (Raise e, w4)
              end
          | (Raise e, w3) => (Raise e, w3)
          end
      | (Raise e, w2) => (Raise e, w2)
      end
  | (Raise e, w1) => (Raise e, w1)
  end.
Proof.
  destruct workflow_nodes as (Hn1 & Hn2 & Hn3 & _).
  destruct workflow_edges as (He1 & He2 & He3 & _).
  unfold invoke. rewrite workflow_entry_point. unfold recursion_limit.
  rewrite (run_from_step _ _ "load_resume" _ _ _ eq_refl Hn1).
  destruct (call_node (load_resume env) st w) as [[s1|e] w1]; [| reflexivity].
  rewrite (next_node_edge _ _ _ _ He1).
  rewrite (run_from_step _ _ "extract_data" _ _ _ eq_refl Hn2).
  destruct (call_node (extract_data env) s1 w1) as [[s2|e] w2]; [| reflexivity].
  rewrite (next_node_edge _ _ _ _ He2).
  rewrite (run_from_step _ _ "match_jd" _ _ _ eq_refl Hn3).
  destruct (call_node (match_jd env) s2 w2) as [[s3|e] w3]; [| reflexivity].
  rewrite (next_node_edge _ _ _ _ He3).
  apply run_from_score_candidate.
Qed.

(** *** ScoreCandidate on a state that already carries an error *)

(** C1.  When [error] is non-empty on entry, ScoreCandidate returns a state
    with score 0, the single reason "Processing failed: <error>", no
    suggestions and the same error (and nothing else touched); the oracle is
    not called. *)
Theorem score_candidate_node_upstream_error st w :
  error st <> "" ->
  exists st',
    call_node (score_candidate_node env) st w = (Ret st', w)
    /\ score st' = VInt 0
    /\ reasons st' = VList [VStr ("Processing failed: " ++ error st)]
    /\ suggestions st' = VList []
    /\ error st' = error st
    /\ jd st' = jd st /\ resume_file_path st' = resume_file_path st
    /\ resume_text st' = resume_text st /\ resume_data st' = resume_data st
    /\ match_data st' = match_data st /\ candidate_name st' = candidate_name st.
Proof.
  intros Herr.
  unfold call_node, score_candidate_node, bind, get_state; cbn -[truthy].
  rewrite (truthy_str_true _ Herr).
  eexists; split; [reflexivity | simpl; repeat split].
Qed.

(** *** The conditional edge *)

Lemma py_lt_below v (n : Z) : py_lt v n = Ret true <-> below n v.
Proof.
  split.
  - destruct v as [|b|z|[q| | |]|s|l|m]; cbn; intros H; inversion H as [H1];
      try constructor.
    + apply Z.ltb_lt, H1.
    + apply Z.ltb_lt, H1.
    + apply Qnot_le_lt. intros Hle. apply Qle_bool_iff in Hle.
      rewrite Hle in H1. discriminate.
  - intros [b H|z H|q H|]; cbn; try reflexivity.
    + apply Z.ltb_lt in H. rewrite H. reflexivity.
    + apply Z.ltb_lt in H. rewrite H. reflexivity.
    + destruct (Qle_bool (inject_Z n) q) eqn:E; [| reflexivity].
      apply Qle_bool_iff in E. exfalso. exact (Qlt_not_le _ _ H E).
Qed.

Lemma py_lt_at_least v (n : Z) : at_least n v -> py_lt v n = Ret false.
Proof.
  intros [b H|z H|q H|]; cbn; try reflexivity.
  - apply Z.ltb_ge in H. rewrite H. reflexivity.
  - apply Z.ltb_ge in H. rewrite H. reflexivity.
  - apply Qle_bool_iff in H. rewrite H. reflexivity.
Qed.

(** C4.  After ScoreCandidate the graph goes to SuggestImprovements exactly
    when the score is below 50, and the run does what the edge says: with a
    score below 50 the rest of the run is the call of SuggestImprovements on
    the state ScoreCandidate produced; with a score of 50 or more the run
    ends there and returns that very state, so its suggestions are those of
    the scoring stage. *)
Theorem suggest_iff_score_below_50 st :
  let g := create_screening_workflow env in
  (next_node g "score_candidate" st = Ret "suggest_improvements"
   <-> below 50 (score st))
  /\ nodes g !! "suggest_improvements" = Some (suggest_improvements env)
  /\ (at_least 50 (score st) -> next_node g "score_candidate" st = Ret END)
  /\ (forall st0 w w' fuel,
        call_node (score_candidate_node env) st0 w = (Ret st, w') ->
        (below 50 (score st) ->
         run_from g (S (S fuel)) "score_candidate" st0 w
         = call_node (suggest_improvements env) st w')
        /\ (at_least 50 (score st) ->
            run_from g (S (S fuel)) "score_candidate" st0 w = (Ret st, w'))).
Proof.
  cbv zeta. rewrite next_node_score_candidate.
  split; [| split; [| split]].
  - rewrite <- py_lt_below.
    destruct (py_lt (score st) 50) as [[|]|e]; split; intros H;
      try reflexivity; try discriminate H.
  - apply workflow_nodes.
  - intros H. rewrite (py_lt_at_least _ _ H). reflexivity.
  - intros st0 w w' fuel Hrun. split; intros H.
    + apply py_lt_below in H.
      rewrite run_from_score_candidate, Hrun, H. reflexivity.
    + rewrite run_from_score_candidate, Hrun, (py_lt_at_least _ _ H).
      reflexivity.
Qed.

(** *** SuggestImprovements *)

Lemma py_str_text (s : string) : py_str env (VStr s) = s.
Proof. reflexivity. Qed.

(** C5.  On a state without suggestions: when [match_data.gaps] is a
    non-empty list, the stage sets [suggestions] to the first
    min(3, len(gaps)) gaps in order, each rendered as
    "Develop skills/experience in: <gap>"; when [gaps] is empty or missing
    (as in the initial, empty [match_data]), it sets the one generic
    suggestion.  Nothing else changes. *)
Theorem suggest_improvements_from_gaps st w (m : gmap string value) :
  suggestions st = VList [] ->
  match_data st = VDict m ->
  (forall gaps : list value,
      m !! "gaps" = Some (VList gaps) -> gaps <> [] ->
      let rendered :=
        map (fun gap => VStr ("Develop skills/experience in: " ++ py_str env gap))
            (take 3 gaps) in
      call_node (suggest_improvements env) st w
      = (Ret (with_suggestions (VList rendered) st), w)
      /\ length rendered = Nat.min 3 (length gaps))
  /\ (m !! "gaps" = None \/ m !! "gaps" = Some (VList []) ->
      call_node (suggest_improvements env) st w
      = (Ret (with_suggestions
                (VList [VStr "Consider gaining more relevant experience"]) st),
         w)).
Proof.
  intros Hs Hm. split.
  - intros gaps Hg Hne rendered. split.
    + rewrite suggest_improvements_run, Hs, Hm. cbn. rewrite Hg. cbn.
      destruct gaps; [congruence | reflexivity].
    + unfold rendered. rewrite length_map, length_take. reflexivity.
  - intros Hg. rewrite suggest_improvements_run, Hs, Hm. cbn.
    destruct Hg as [Hg|Hg]; rewrite Hg; reflexivity.
Qed.

Lemma slice_items_nonempty v (n : nat) items :
  truthy v = true -> py_slice_items v (S n) = Ret items -> items <> [].
Proof.
  destruct v as [|b|z|f|s|l|m]; cbn; intros Ht H; inversion H; subst.
  - destruct s; [discriminate | cbn; congruence].
  - destruct l; [discriminate | cbn; congruence].
Qed.

(** C6.  SuggestImprovements leaves a state with suggestions as it is, and
    running it twice in a row is the same as running it once, from any
    state. *)
Theorem suggest_improvements_idempotent :
  (forall st w,
      truthy (suggestions st) = true ->
      call_node (suggest_improvements env) st w = (Ret st, w))
  /\ (forall st w,
        (let* st' := call_node (suggest_improvements env) st in
         call_node (suggest_improvements env) st') w
        = call_node (suggest_improvements env) st w).
Proof.
  assert (Hfix : forall st w, truthy (suggestions st) = true ->
                 call_node (suggest_improvements env) st w = (Ret st, w)).
  { intros st w H. rewrite suggest_improvements_run, H. reflexivity. }
  split; [exact Hfix |].
  intros st w. unfold bind.
  destruct (truthy (suggestions st)) eqn:Ht.
  - rewrite (Hfix _ _ Ht). apply Hfix, Ht.
  - rewrite suggest_improvements_run, Ht.
    destruct (py_get (match_data st) "gaps" (VList [])) as [gaps|e];
      [| reflexivity].
    destruct (truthy gaps) eqn:Hg.
    + destruct (py_slice_items gaps 3) as [items|e] eqn:Hi; [| reflexivity].
      apply Hfix. cbn.
      pose proof (slice_items_nonempty _ _ _ Hg Hi) as Hne.
      destruct items; [congruence | reflexivity].
    + apply Hfix. reflexivity.
Qed.

(** *** The error field across the stages *)

(** C7, as the code has it.  ExtractData and MatchJD return a state with a
    non-empty error untouched; ScoreCandidate returns one with the same
    error; whatever SuggestImprovements returns has the same error.
    LoadResume is different: it assigns [error] on every path, and resets it
    to the empty string when the reader delivered text. *)
Theorem error_kept_by_later_stages st w :
  error st <> "" ->
  call_node (extract_data env) st w = (Ret st, w)
  /\ call_node (match_jd env) st w = (Ret st, w)
  /\ (exists st', call_node (score_candidate_node env) st w = (Ret st', w)
                 /\ error st' = error st)
  /\ (forall st' w', call_node (suggest_improvements env) st w = (Ret st', w') ->
                    error st' = error st)
  /\ (forall pages w',
        loader_load env (resume_file_path st) w = (Ret pages, w') ->
        strip (String.concat newline pages) <> "" ->
        exists st', call_node (load_resume env) st w = (Ret st', w')
                    /\ error st' = "").
Proof.
  intros Herr. pose proof (truthy_str_true _ Herr) as Ht.
  split; [| split; [| split; [| split]]].
  - rewrite extract_data_run, Ht. reflexivity.
  - rewrite match_jd_run, Ht. reflexivity.
  - rewrite score_candidate_node_run, Ht. eexists; split; reflexivity.
  - intros st' w'. rewrite suggest_improvements_run.
    destruct (truthy (suggestions st)); [intros [= <- _]; reflexivity |].
    destruct (py_get (match_data st) "gaps" (VList [])) as [gaps|e];
      [| discriminate].
    destruct (truthy gaps).
    + destruct (py_slice_items gaps 3) as [items|e]; [| discriminate].
      intros [= <- _]. reflexivity.
    + intros [= <- _]. reflexivity.
  - intros pages w' Hload Htext.
    rewrite load_resume_run, Hload, (truthy_str_true _ Htext).
    eexists; split; reflexivity.
Qed.

(** *** Failures of the extraction call *)

Lemma extraction_failed_error (msg : string) :
  py_in "error" (extraction_failed msg) = Ret true
  /\ py_getitem (extraction_failed msg) "error" = Ret (VStr msg).
Proof. split; vm_compute; reflexivity. Qed.

Lemma matching_failed_error (msg : string) :
  py_in "error" (matching_failed msg) = Ret true
  /\ py_getitem (matching_failed msg) "error" = Ret (VStr msg)
  /\ py_get (matching_failed msg) "matches" (VList []) = Ret (VList [])
  /\ py_get (matching_failed msg) "gaps" (VList []) = Ret (VList []).
Proof. repeat split; vm_compute; reflexivity. Qed.

(** Looking for ["error"] in an object never raises, and reading it after
    finding it does not raise either. *)
Lemma error_lookup_of_object (m : gmap string value) :
  (exists b, py_in "error" (VDict m) = Ret b)
  /\ (py_in "error" (VDict m) = Ret true ->
      exists x, py_getitem (VDict m) "error" = Ret x).
Proof.
  split; [eexists; reflexivity |].
  cbn. intros [= H]. apply bool_decide_eq_true in H. destruct H as [x Hx].
  exists x. rewrite Hx. reflexivity.
Qed.

(** C8, as the code has it.  On a state without error, a failure inside
    [extract_resume_data] - of the call itself or of the parsing of its
    answer, no matter which - comes back as the wrapper's default reply: that
    reply is stored in [resume_data] and [error] is tagged
    "Extraction error".  The tag "Data extraction error", with [resume_data]
    reset to the empty object, is used when looking for ["error"] in a reply
    that did arrive raises, and only then: a state that leaves ExtractData
    with that tag comes of a reply that arrived, that is not an object, and
    on which the look-up raised. *)
Theorem extract_data_failure_tags st w :
  error st = "" ->
  (forall e w',
      extract_resume_data_try env (resume_text st) w = (Raise e, w') ->
      call_node (extract_data env) st w
      = (Ret (with_error ("Extraction error: " ++ exc_str env e)
                (with_resume_data
                   (VDict {[ "skills" := VList []; "experience" := VList [];
                             "education" := VList [];
                             "error" := VStr (exc_str env e) ]}) st)), w'))
  /\ (forall v e w',
        extract_resume_data_try env (resume_text st) w = (Ret v, w') ->
        py_in "error" v = Raise e
        \/ (py_in "error" v = Ret true /\ py_getitem v "error" = Raise e) ->
        call_node (extract_data env) st w
        = (Ret (with_resume_data (VDict ∅)
                  (with_error ("Data extraction error: " ++ exc_str env e) st)),
           w'))
  /\ (forall st' w',
        call_node (extract_data env) st w = (Ret st', w') ->
        String.prefix "Data extraction error: " (error st') = true ->
        exists v e,
          extract_resume_data_try env (resume_text st) w = (Ret v, w')
          /\ (py_in "error" v = Raise e
              \/ (py_in "error" v = Ret true
                  /\ py_getitem v "error" = Raise e))
          /\ (forall m, v <> VDict m)
          /\ st' = with_resume_data (VDict ∅)
                     (with_error ("Data extraction error: " ++ exc_str env e)
                        st)).
Proof.
  intros Herr. split; [| split].
  - intros e w' Htry.
    rewrite extract_data_run, Herr, extract_resume_data_run, Htry.
    reflexivity.
  - intros v e w' Htry Hbad.
    rewrite extract_data_run, Herr, extract_resume_data_run, Htry.
    cbn -[py_in py_getitem].
    destruct Hbad as [Hin|[Hin Hget]].
    + rewrite Hin. reflexivity.
    + rewrite Hin, Hget. reflexivity.
  - intros st' w'.
    rewrite extract_data_run, Herr, extract_resume_data_run.
    change (truthy (VStr "")) with false. cbv iota.
    destruct (extract_resume_data_try env (resume_text st) w)
      as [[v|e] w1] eqn:Htry.
    + destruct (py_in "error" v) as [[|]|e] eqn:Hin.
      * destruct (py_getitem v "error") as [x|e] eqn:Hget.
        -- intros [= <- <-] Hp. cbn in Hp. discriminate Hp.
        -- intros [= <- <-] _. exists v, e.
           split; [reflexivity |]. split; [right; split; assumption |].
           split; [| reflexivity].
           intros m ->. destruct (error_lookup_of_object m) as [_ H].
           destruct (H Hin) as [x Hx]. congruence.
      * intros [= <- <-] Hp. cbn in Hp. rewrite Herr in Hp. discriminate Hp.
      * intros [= <- <-] _. exists v, e.
        split; [reflexivity |]. split; [left; exact Hin |].
        split; [| reflexivity].
        intros m ->. discriminate Hin.
    + destruct (extraction_failed_error (exc_str env e)) as [-> ->].
      intros [= <- <-] Hp. cbn in Hp. discriminate Hp.
Qed.

(** *** The wrappers of chains.py *)

(** C10.  Each of the three wrappers always returns a value.  When its [try]
    block raises [e], that value is the default reply: empty skills,
    experience and education (extraction), empty matches and gaps (matching),
    score 0 with the placeholder reason (scoring), each with ["error"] set to
    [str(e)]; otherwise it is what the chain returned. *)
Theorem wrappers_never_raise :
  (forall (text : string) w,
      exists v w', extract_resume_data env text w = (Ret v, w')
        /\ match extract_resume_data_try env text w with
           | (Ret r, w0) => v = r /\ w' = w0
           | (Raise e, w0) =>
               v = VDict {[ "skills" := VList []; "experience" := VList [];
                            "education" := VList [];
                            "error" := VStr (exc_str env e) ]}
               /\ w' = w0
           end)
  /\ (forall (j : string) (rd : value) w,
        exists v w', match_to_jd env j rd w = (Ret v, w')
          /\ match match_to_jd_try env j rd w with
             | (Ret r, w0) => v = r /\ w' = w0
             | (Raise e, w0) =>
                 v = VDict {[ "matches" := VList []; "gaps" := VList [];
                              "error" := VStr (exc_str env e) ]}
                 /\ w' = w0
             end)
  /\ (forall (j : string) (rd md : value) w,
        exists v w', score_candidate env j rd md w = (Ret v, w')
          /\ match score_candidate_try env j rd md w with
             | (Ret r, w0) => v = r /\ w' = w0
             | (Raise e, w0) =>
                 v = VDict {[ "score" := VInt 0;
                              "reasons" := VList [VStr "Error in scoring"];
                              "suggestions" := VList [];
                              "error" := VStr (exc_str env e) ]}
                 /\ w' = w0
             end).
Proof.
  split; [| split].
  - intros text w. rewrite extract_resume_data_run.
    destruct (extract_resume_data_try env text w) as [[r|e] w0];
      eexists _, _; repeat split.
  - intros j rd w. rewrite match_to_jd_run.
    destruct (match_to_jd_try env j rd w) as [[r|e] w0];
      eexists _, _; repeat split.
  - intros j rd md w. rewrite score_candidate_run.
    destruct (score_candidate_try env j rd md w) as [[r|e] w0];
      eexists _, _; repeat split.
Qed.

(** *** A whole run *)

(** SuggestImprovements touches nothing but [suggestions], and not the
    world. *)
Lemma suggest_improvements_frame st w st' w' :
  call_node (suggest_improvements env) st w = (Ret st', w') ->
  st' = with_suggestions (suggestions st') st /\ w' = w.
Proof.
  rewrite suggest_improvements_run.
  destruct (truthy (suggestions st)).
  { intros [= <- <-]. destruct st; split; reflexivity. }
  destruct (py_get (match_data st) "gaps" (VList [])) as [gaps|e];
    [| discriminate].
  destruct (truthy gaps).
  - destruct (py_slice_items gaps 3) as [items|e]; [| discriminate].
    intros [= <- <-]. split; reflexivity.
  - intros [= <- <-]. split; reflexivity.
Qed.

(** The four ways ScoreCandidate can end; it always returns. *)
Lemma score_candidate_node_cases st w :
  exists st' w',
    call_node (score_candidate_node env) st w = (Ret st', w')
    /\ jd st' = jd st /\ resume_data st' = resume_data st
    /\ match_data st' = match_data st
    /\ ((error st <> "" /\ error st' = error st /\ score st' = VInt 0
         /\ reasons st' = VList [VStr ("Processing failed: " ++ error st)])
        \/ (error st = "" /\ exists e w0,
               score_candidate_try env (jd st) (resume_data st) (match_data st) w
               = (Raise e, w0)
               /\ error st' = "Scoring error: " ++ exc_str env e
               /\ score st' = VInt 0
               /\ reasons st' = VList [VStr "Error in scoring"])
        \/ (error st = "" /\ exists sd,
               score_candidate_try env (jd st) (resume_data st) (match_data st) w
               = (Ret sd, w')
               /\ (forall m, sd <> VDict m)
               /\ error st' = "Candidate scoring error: "
                              ++ exc_str env (AttributeError sd)
               /\ score st' = VInt 0
               /\ reasons st' = VList [VStr ("Scoring failed: "
                                             ++ exc_str env (AttributeError sd))])
        \/ (error st = "" /\ exists m : gmap string value,
               score_candidate_try env (jd st) (resume_data st) (match_data st) w
               = (Ret (VDict m), w')
               /\ error st' = match m !! "error" with
                              | Some x => "Scoring error: " ++ py_str env x
                              | None => ""
                              end
               /\ score st' = default (VInt 0) (m !! "score")
               /\ reasons st' = default (VList []) (m !! "reasons"))).
Proof.
  rewrite score_candidate_node_run.
  destruct (truthy (VStr (error st))) eqn:Ht.
  { eexists _, _; split; [reflexivity |]. repeat split. left.
    repeat split. intros E. rewrite E in Ht. discriminate. }
  apply truthy_str_false in Ht.
  cbv zeta. rewrite score_candidate_run.
  destruct (score_candidate_try env (jd st) (resume_data st) (match_data st) w)
    as [[sd|e] w0] eqn:Htry.
  - destruct sd as [|b|z|f|s|l|m];
      try (eexists _, _; split; [reflexivity |]; repeat split;
           right; right; left; split; [exact Ht |];
           eexists; repeat split; congruence).
    destruct (m !! "error") as [x|] eqn:Hx;
      (eexists _, _; split; [reflexivity |]; repeat split;
       right; right; right; split; [exact Ht |];
       exists m; rewrite Hx; repeat split; cbn; congruence).
  - eexists _, _; split; [vm_compute; reflexivity |]. repeat split.
    right; left. split; [exact Ht |]. exists e, w0. repeat split.
Qed.

(** What a returned run went through. *)
Lemma invoke_returns_via st0 w0 stf wf :
  invoke (create_screening_workflow env) st0 w0 = (Ret stf, wf) ->
  exists s3 w3 s4 w4,
    call_node (score_candidate_node env) s3 w3 = (Ret s4, w4)
    /\ stf = with_suggestions (suggestions stf) s4
    /\ (py_lt (score s4) 50 = Ret false /\ stf = s4
        \/ py_lt (score s4) 50 = Ret true).
Proof.
  rewrite invoke_run.
  destruct (call_node (load_resume env) st0 w0) as [[s1|e] w1]; [| discriminate].
  destruct (call_node (extract_data env) s1 w1) as [[s2|e] w2]; [| discriminate].
  destruct (call_node (match_jd env) s2 w2) as [[s3|e] w3]; [| discriminate].
  destruct (call_node (score_candidate_node env) s3 w3) as [[s4|e] w4] eqn:H4;
    [| discriminate].
  destruct (py_lt (score s4) 50) as [[|]|e] eqn:Hlt; [| | discriminate].
  - intros H. apply suggest_improvements_frame in H as [H _].
    exists s3, w3, s4, w4.
    split; [exact H4 | split; [exact H | right; exact Hlt]].
  - intros [= <- <-]. exists s3, w3, s4, w4.
    split; [exact H4 | split; [destruct s4; reflexivity |]].
    left; split; [exact Hlt | reflexivity].
Qed.

(** A reply of the scoring wrapper's [try] block is a reply of the chain. *)
Lemma score_candidate_try_ret (j : string) (rd md : value) w v w' :
  score_candidate_try env j rd md w = (Ret v, w') ->
  exists a b c w1, invoke_scoring env j a b c w1 = (Ret v, w').
Proof.
  unfold score_candidate_try, bind, lift_outcome.
  destruct (get_llm env w) as [[[]|e] w1]; [| discriminate].
  destruct (py_get md "matches" (VList [])) as [a|e]; [| discriminate].
  destruct (py_get md "gaps" (VList [])) as [b|e]; [| discriminate].
  destruct (py_get rd "experience" (VList [])) as [c|e]; [| discriminate].
  intros H. exists a, b, c, w1. exact H.
Qed.


(** C3, as the code has it.  The score of a returned run is 0 or the very
    value found under ["score"] in the reply of the scoring chain: nothing
    clamps or rounds it.  So it is an integer-valued number between 0 and
    100 provided the chain's replies carry such scores. *)
Theorem final_score_is_the_reply_score st0 w0 stf wf :
  invoke (create_screening_workflow env) st0 w0 = (Ret stf, wf) ->
  (score stf = VInt 0
   \/ exists (j : string) (a b c : value) w1 w2 (m : gmap string value),
        invoke_scoring env j a b c w1 = (Ret (VDict m), w2)
        /\ m !! "score" = Some (score stf))
  /\ ((forall (j : string) (a b c : value) w1 w2 (m : gmap string value) s,
         invoke_scoring env j a b c w1 = (Ret (VDict m), w2) ->
         m !! "score" = Some s -> valid_score s) ->
      valid_score (score stf)).
Proof.
  intros Hrun.
  assert (Hsc : score stf = VInt 0
                \/ exists (j : string) (a b c : value) w1 w2
                          (m : gmap string value),
                     invoke_scoring env j a b c w1 = (Ret (VDict m), w2)
                     /\ m !! "score" = Some (score stf)).
  { destruct (invoke_returns_via _ _ _ _ Hrun)
      as (s3 & w3 & s4 & w4 & H4 & Hf & _).
    assert (Hs : score stf = score s4) by (rewrite Hf; reflexivity).
    rewrite Hs.
    destruct (score_candidate_node_cases s3 w3)
      as (st' & w' & H4' & _ & _ & _ & Hcases).
    rewrite H4 in H4'. injection H4' as <- <-.
    destruct Hcases as [(_ & _ & S & _)
                       |[(_ & e & w0' & _ & _ & S & _)
                       |[(_ & sd & _ & _ & _ & S & _)
                       |(_ & m & Htry & _ & S & _)]]];
      try (left; exact S).
    destruct (m !! "score") as [x|] eqn:Hx; [| left; exact S].
    right. apply score_candidate_try_ret in Htry as (a & b & c & w1 & Hinv).
    exists (jd s3), a, b, c, w1, w4, m. split; [exact Hinv |].
    rewrite Hx, S. reflexivity. }
  split; [exact Hsc |].
  intros Hvalid.
  destruct Hsc as [H0|(j & a & b & c & w1 & w2 & m & Hinv & Hm)].
  - rewrite H0. exists 0. split; [lia | left; reflexivity].
  - exact (Hvalid _ _ _ _ _ _ _ _ Hinv Hm).
Qed.

(** *** The batch runner *)

Lemma process_resume_run (j path name : string) w :
  process_resume env j path name w =
  match invoke (create_screening_workflow env) (initial_state j path name) w with
  | (Ret result, w') =>
      match py_get (match_data result) "matches" (VList []),
            py_get (match_data result) "gaps" (VList []) with
      | Ret matches, Ret gaps =>
          (Ret (VDict {[ "candidate" := VStr name;
                         "score" := score result;
                         "reasons" := reasons result;
                         "suggestions" := suggestions result;
                         "matches" := matches;
                         "gaps" := gaps;
                         "error" := VStr (error result) ]}), w')
      | Raise e, _ => (Raise e, w')
      | Ret _, Raise e => (Raise e, w')
      end
  | (Raise e, w') => (Raise e, w')
  end.
Proof.
  unfold process_resume, bind, lift_outcome, ret.
  destruct (invoke _ _ w) as [[result|e] w']; [| reflexivity].
  destruct (py_get (match_data result) "matches" (VList [])) as [a|e];
    [| reflexivity].
  destruct (py_get (match_data result) "gaps" (VList [])) as [b|e];
    reflexivity.
Qed.

(** Whatever [process_resume] returns is a well-formed record of its
    candidate. *)
Lemma process_resume_record (j path name content : string) w r w' :
  process_resume env j path name w = (Ret r, w') ->
  is_record_of (name, content) r.
Proof.
  rewrite process_resume_run.
  destruct (invoke _ _ w) as [[result|e] w1]; [| discriminate].
  destruct (py_get (match_data result) "matches" (VList [])) as [a|e];
    [| discriminate].
  destruct (py_get (match_data result) "gaps" (VList [])) as [b|e];
    [| discriminate].
  intros [= <- <-]. eexists. split; [reflexivity |]. split.
  - vm_compute. reflexivity.
  - unfold record_keys. rewrite !dom_insert_L, dom_singleton_L. set_solver.
Qed.

Lemma process_loop_records (j : string) files acc w rs w' :
  process_loop env j files acc w = (Ret rs, w') ->
  exists new, rs = (acc ++ new)%list /\ Forall2 is_record_of files new.
Proof.
  revert acc w. induction files as [|[name content] rest IH]; intros acc w.
  - intros [= <- <-]. exists []. split; [symmetry; apply app_nil_r | constructor].
  - cbn [process_loop]. unfold bind at 1.
    destruct (write_temp env content w) as [[tmp|e] w1]; [| discriminate].
    unfold bind at 1, try_finally, ret.
    unfold bind at 1.
    destruct (process_resume env j tmp name w1) as [[r|e] w2] eqn:Hr.
    + destruct (remove_temp env tmp w2) as [[[]|e] w3]; [| discriminate].
      intros H. apply IH in H as (new & -> & Hnew).
      exists (r :: new). split.
      * rewrite <- app_assoc. reflexivity.
      * constructor; [| exact Hnew].
        exact (process_resume_record _ _ _ content _ _ _ Hr).
    + destruct (remove_temp env tmp w2) as [[[]|e'] w3]; discriminate.
Qed.

(** **** When does the batch return? *)

Lemma load_resume_total st w :
  exists st' w', call_node (load_resume env) st w = (Ret st', w')
                 /\ match_data st' = match_data st.
Proof.
  rewrite load_resume_run.
  destruct (loader_load env (resume_file_path st) w) as [[pages|e] w'].
  - destruct (truthy _); eexists _, _; split; reflexivity.
  - eexists _, _; split; reflexivity.
Qed.

Lemma extract_data_total st w :
  exists st' w', call_node (extract_data env) st w = (Ret st', w')
                 /\ match_data st' = match_data st.
Proof.
  rewrite extract_data_run.
  destruct (truthy (VStr (error st))); [eexists _, _; split; reflexivity |].
  destruct (extract_resume_data env (resume_text st) w) as [[rd|e] w'];
    [| eexists _, _; split; reflexivity].
  destruct (py_in "error" rd) as [[|]|e];
    [| eexists _, _; split; reflexivity ..].
  destruct (py_getitem rd "error") as [x|e]; eexists _, _; split; reflexivity.
Qed.

Lemma match_to_jd_try_ret (j : string) (rd : value) w v w' :
  match_to_jd_try env j rd w = (Ret v, w') ->
  exists a b c w1, invoke_matching env j a b c w1 = (Ret v, w').
Proof.
  unfold match_to_jd_try, bind, lift_outcome.
  destruct (get_llm env w) as [[[]|e] w1]; [| discriminate].
  destruct (py_get rd "skills" (VList [])) as [a|e]; [| discriminate].
  destruct (py_get rd "experience" (VList [])) as [b|e]; [| discriminate].
  destruct (py_get rd "education" (VList [])) as [c|e]; [| discriminate].
  intros H. exists a, b, c, w1. exact H.
Qed.

Lemma gaps_listed_empty : gaps_listed (VDict ∅).
Proof.
  exists ∅. split; [reflexivity |]. intros g Hg.
  rewrite lookup_empty in Hg. discriminate.
Qed.

Lemma gaps_listed_matching_failed (msg : string) :
  gaps_listed (matching_failed msg).
Proof.
  eexists. split; [reflexivity |]. intros g Hg.
  vm_compute in Hg. injection Hg as <-. exists []. reflexivity.
Qed.

Lemma py_lt_number v (n : Z) : is_number v -> exists b, py_lt v n = Ret b.
Proof.
  destruct v as [|b|z|[q| | |]|s|l|m]; cbn; intros H;
    try contradiction; eexists; reflexivity.
Qed.

Lemma suggest_improvements_total st w :
  gaps_listed (match_data st) ->
  exists st', call_node (suggest_improvements env) st w = (Ret st', w)
              /\ match_data st' = match_data st.
Proof.
  intros (m & Hm & Hgaps). rewrite suggest_improvements_run.
  destruct (truthy (suggestions st)); [eexists; split; reflexivity |].
  rewrite Hm. cbn -[truthy py_slice_items].
  destruct (m !! "gaps") as [g|] eqn:Hg; cbn -[truthy py_slice_items].
  - destruct (Hgaps g eq_refl) as [l ->].
    destruct (truthy (VList l)); eexists; split; first [reflexivity | exact Hm].
  - eexists; split; first [reflexivity | exact Hm].
Qed.

Section Returns.

(** What is asked of the collaborators: the scratch file can be written and
    removed, the matching chain answers with objects whose gaps are a list,
    and the scoring chain's objects carry a number as score. *)
Hypothesis write_temp_ok :
  forall (content : string) w, exists path w', write_temp env content w = (Ret path, w').
Hypothesis remove_temp_ok :
  forall (path : string) w, exists w', remove_temp env path w = (Ret tt, w').
Hypothesis matching_ok :
  forall (j : string) (a b c : value) w v w',
    invoke_matching env j a b c w = (Ret v, w') -> gaps_listed v.
Hypothesis scoring_ok :
  forall (j : string) (a b c : value) w v w',
    invoke_scoring env j a b c w = (Ret v, w') -> score_numeric v.

Lemma match_jd_total st w :
  gaps_listed (match_data st) ->
  exists st' w', call_node (match_jd env) st w = (Ret st', w')
                 /\ gaps_listed (match_data st').
Proof.
  intros Hgood. rewrite match_jd_run.
  destruct (truthy (VStr (error st)));
    [eexists _, _; split; [reflexivity | exact Hgood] |].
  rewrite match_to_jd_run.
  destruct (match_to_jd_try env (jd st) (resume_data st) w) as [[md|e] w'] eqn:Htry.
  - assert (Hmd : gaps_listed md).
    { apply match_to_jd_try_ret in Htry as (a & b & c & w1 & Hinv).
      exact (matching_ok _ _ _ _ _ _ _ Hinv). }
    destruct (py_in "error" md) as [[|]|e'].
    + destruct (py_getitem md "error") as [x|e'];
        eexists _, _; (split; [reflexivity |]);
        [exact Hmd | exact gaps_listed_empty].
    + eexists _, _; split; [reflexivity | exact Hmd].
    + eexists _, _; split; [reflexivity | exact gaps_listed_empty].
  - eexists _, _; split; [vm_compute; reflexivity |].
    apply gaps_listed_matching_failed.
Qed.

Lemma score_candidate_node_total st w :
  exists st' w', call_node (score_candidate_node env) st w = (Ret st', w')
                 /\ match_data st' = match_data st
                 /\ is_number (score st').
Proof.
  destruct (score_candidate_node_cases st w)
    as (st' & w' & Hrun & _ & _ & Hmd & Hcases).
  exists st', w'. split; [exact Hrun |]. split; [exact Hmd |].
  destruct Hcases as [(_ & _ & S & _)
                     |[(_ & e & w0' & _ & _ & S & _)
                     |[(_ & sd & _ & _ & _ & S & _)
                     |(_ & m & Htry & _ & S & _)]]];
    rewrite S; try exact I.
  destruct (m !! "score") as [x|] eqn:Hx; [| exact I].
  apply score_candidate_try_ret in Htry as (a & b & c & w1 & Hinv).
  exact (scoring_ok _ _ _ _ _ _ _ Hinv m x eq_refl Hx).
Qed.

Lemma invoke_total (j path name : string) w :
  exists stf wf,
    invoke (create_screening_workflow env) (initial_state j path name) w
    = (Ret stf, wf)
    /\ gaps_listed (match_data stf).
Proof.
  rewrite invoke_run.
  destruct (load_resume_total (initial_state j path name) w)
    as (s1 & w1 & -> & H1).
  destruct (extract_data_total s1 w1) as (s2 & w2 & -> & H2).
  assert (Hg2 : gaps_listed (match_data s2)).
  { rewrite H2, H1. exact gaps_listed_empty. }
  destruct (match_jd_total s2 w2 Hg2) as (s3 & w3 & -> & Hg3).
  destruct (score_candidate_node_total s3 w3) as (s4 & w4 & -> & H4 & Hnum).
  assert (Hg4 : gaps_listed (match_data s4)) by (rewrite H4; exact Hg3).
  destruct (py_lt_number _ 50 Hnum) as [[|] ->].
  - destruct (suggest_improvements_total s4 w4 Hg4) as (s5 & -> & H5).
    eexists _, _; split; [reflexivity |]. rewrite H5. exact Hg4.
  - eexists _, _; split; [reflexivity | exact Hg4].
Qed.

Lemma process_resume_total (j path name : string) w :
  exists r w', process_resume env j path name w = (Ret r, w').
Proof.
  rewrite process_resume_run.
  destruct (invoke_total j path name w) as (stf & wf & -> & (m & -> & _)).
  eexists _, _; reflexivity.
Qed.

Lemma process_loop_total (j : string) files acc w :
  exists rs w', process_loop env j files acc w = (Ret rs, w').
Proof.
  revert acc w. induction files as [|[name content] rest IH]; intros acc w.
  - eexists _, _; reflexivity.
  - cbn [process_loop]. unfold bind at 1.
    destruct (write_temp_ok content w) as (tmp & w1 & ->).
    unfold bind at 1, try_finally, ret. unfold bind at 1.
    destruct (process_resume_total j tmp name w1) as (r & w2 & ->).
    destruct (remove_temp_ok tmp w2) as (w3 & ->).
    apply IH.
Qed.

End Returns.

(** C9, as the code has it.  Whenever the batch runner returns, it returns
    one record per uploaded resume, in upload order, each with the seven keys
    and the name of its resume - whether or not the runs ended with an
    error.  It does return when the scratch files can be written and removed
    and the oracle's replies have the expected shape: matching replies are
    objects whose gaps are a list, and the score in a scoring reply is a
    number.  (A score or gaps of another kind raises out of the run and ends
    the batch.) *)
Theorem batch_one_record_per_resume :
  (forall (j : string) files w rs w',
      process_multiple_resumes env j files w = (Ret rs, w') ->
      Forall2 is_record_of files rs)
  /\ ((forall (content : string) w,
         exists path w', write_temp env content w = (Ret path, w')) ->
      (forall (path : string) w,
         exists w', remove_temp env path w = (Ret tt, w')) ->
      (forall (j : string) (a b c : value) w v w',
         invoke_matching env j a b c w = (Ret v, w') -> gaps_listed v) ->
      (forall (j : string) (a b c : value) w v w',
         invoke_scoring env j a b c w = (Ret v, w') -> score_numeric v) ->
      forall (j : string) files w,
      exists rs w',
        process_multiple_resumes env j files w = (Ret rs, w')
        /\ Forall2 is_record_of files rs).
Proof.
  assert (Hrec : forall (j : string) files w rs w',
             process_multiple_resumes env j files w = (Ret rs, w') ->
             Forall2 is_record_of files rs).
  { intros j files w rs w' H.
    apply process_loop_records in H as (new & -> & Hnew). exact Hnew. }
  split; [exact Hrec |].
  intros Hw Hr Hm Hs j files w.
  destruct (process_loop_total Hw Hr Hm Hs j files [] w) as (rs & w' & Hrun).
  exists rs, w'. split; [exact Hrun | exact (Hrec _ _ _ _ _ Hrun)].
Qed.

End Properties.

(** * The scripted runs *)

Lemma run_35 :
  invoke (create_screening_workflow env_35) fresh tt = (Ret final_35, tt).
Proof. vm_compute. reflexivity. Qed.

Lemma run_150 :
  invoke (create_screening_workflow env_150) fresh tt = (Ret final_150, tt).
Proof. vm_compute. reflexivity. Qed.

Lemma run_blank :
  invoke (create_screening_workflow env_blank) fresh tt = (Ret final_blank, tt).
Proof. vm_compute. reflexivity. Qed.



Lemma run_percent :
  invoke (create_screening_workflow env_percent) fresh tt
  = (Raise (NotOrdered (VStr "85%")), tt).
Proof. vm_compute. reflexivity. Qed.

(** * The claims on the scripted runs *)

(** ** Where the code departs from a claim *)


(** C3 fails when the oracle scores 150: the run ends with score 150. *)
Lemma score_150_is_kept :
  invoke (create_screening_workflow env_150) fresh tt = (Ret final_150, tt)
  /\ score final_150 = VInt 150
  /\ ~ valid_score (score final_150).
Proof.
  split; [exact run_150 |]. split; [reflexivity |].
  intros (z & Hz & [H|(q & H & _)]); [| discriminate H].
  injection H as <-. lia.
Qed.

(** C7 fails for LoadResume: entered with an error, it returns a state
    without one as soon as the reader delivers text. *)
Lemma load_resume_clears_error :
  error (with_error "stale" fresh) <> ""
  /\ exists st',
       call_node (load_resume env_35) (with_error "stale" fresh) tt
       = (Ret st', tt)
       /\ error st' = "".
Proof.
  split; [discriminate |].
  eexists. split; [vm_compute; reflexivity | reflexivity].
Qed.

(** C8 fails when the extraction call times out: the error is tagged
    "Extraction error", not "Data extraction error", and [resume_data] holds
    the wrapper's default reply, not the empty object. *)
Lemma transport_failure_is_tagged_extraction_error :
  error (with_resume_text "Python developer" fresh) = ""
  /\ extract_resume_data_try env_extraction_timeout "Python developer" tt
     = (Raise (External TransportFailure "timeout"), tt)
  /\ exists st',
       call_node (extract_data env_extraction_timeout)
                 (with_resume_text "Python developer" fresh) tt
       = (Ret st', tt)
       /\ error st' = "Extraction error: timeout"
       /\ str_contains "Data extraction error" (error st') = false
       /\ resume_data st' = extraction_failed "timeout"
       /\ resume_data st' <> VDict ∅.
Proof.
  split; [reflexivity |]. split; [reflexivity |].
  eexists. split; [vm_compute; reflexivity |].
  split; [reflexivity |]. split; [reflexivity |].
  split; [vm_compute; reflexivity |].
  intros H.
  apply (f_equal (fun v => match v with
                           | VDict m => m !! "error"
                           | _ => None
                           end)) in H.
  vm_compute in H. discriminate H.
Qed.

(** C9 fails when the oracle writes the score as a text: the comparison with
    50 raises, nothing catches it, and the batch returns no list at all. *)
Lemma batch_raises_on_textual_score :
  process_multiple_resumes env_percent "Needs Python, 3+ years" two_uploads tt
  = (Raise (NotOrdered (VStr "85%")), tt)
  /\ ~ exists rs w',
         process_multiple_resumes env_percent "Needs Python, 3+ years"
                                  two_uploads tt = (Ret rs, w').
Proof.
  assert (H : process_multiple_resumes env_percent "Needs Python, 3+ years"
                                       two_uploads tt
              = (Raise (NotOrdered (VStr "85%")), tt))
    by (vm_compute; reflexivity).
  split; [exact H |]. intros (rs & w' & H'). rewrite H in H'. discriminate H'.
Qed.

(** ** The theorems at work *)

(** The blank resume reaches ScoreCandidate with its error. *)
Lemma score_candidate_node_upstream_error_witness :
  error (with_error "Empty PDF or failed to extract text" fresh) <> ""
  /\ exists st',
       call_node (score_candidate_node env_blank)
                 (with_error "Empty PDF or failed to extract text" fresh) tt
       = (Ret st', tt)
       /\ score st' = VInt 0
       /\ reasons st'
          = VList [VStr "Processing failed: Empty PDF or failed to extract text"]
       /\ suggestions st' = VList []
       /\ error st' = "Empty PDF or failed to extract text".
Proof.
  assert (H : error (with_error "Empty PDF or failed to extract text" fresh)
              <> "") by discriminate.
  split; [exact H |].
  destruct (score_candidate_node_upstream_error env_blank _ tt H)
    as (st' & Hrun & Hs & Hr & Hg & He & _).
  exists st'. repeat split; assumption.
Defined.


(** With replies that score 35 the final score is valid. *)
Lemma final_score_is_the_reply_score_witness :
  invoke (create_screening_workflow env_35) fresh tt = (Ret final_35, tt)
  /\ valid_score (score final_35).
Proof.
  assert (Hrun : invoke (create_screening_workflow env_35) fresh tt
                 = (Ret final_35, tt)) by (vm_compute; reflexivity).
  split; [exact Hrun |].
  apply (proj2 (final_score_is_the_reply_score env_35 _ _ _ _ Hrun)).
  intros j a b c [] [] m s Hinv Hm.
  injection Hinv as <-. vm_compute in Hm. injection Hm as <-.
  exists 35. split; [lia | left; reflexivity].
Defined.

(** A score of 35 leads to SuggestImprovements, one of 82 to the end; and
    the run from ScoreCandidate on the script that scores 35 ends with the
    three suggestions SuggestImprovements draws from the gaps. *)
Lemma suggest_iff_score_below_50_witness :
  below 50 (score (with_score (VInt 35) matched))
  /\ next_node (create_screening_workflow env_35) "score_candidate"
               (with_score (VInt 35) matched)
     = Ret "suggest_improvements"
  /\ at_least 50 (score (with_score (VInt 82) matched))
  /\ next_node (create_screening_workflow env_35) "score_candidate"
               (with_score (VInt 82) matched)
     = Ret END
  /\ run_from (create_screening_workflow env_35) 2 "score_candidate" matched tt
     = (Ret final_35, tt).
Proof.
  assert (H35 : below 50 (score (with_score (VInt 35) matched)))
    by (apply below_int; lia).
  assert (H82 : at_least 50 (score (with_score (VInt 82) matched)))
    by (apply at_least_int; lia).
  split; [exact H35 |]. split.
  - apply (proj1 (suggest_iff_score_below_50 env_35 _)). exact H35.
  - split; [exact H82 |]. split.
    + apply (proj1 (proj2 (proj2 (suggest_iff_score_below_50 env_35 _)))).
      exact H82.
    + assert (Hs : call_node (score_candidate_node env_35) matched tt
                   = (Ret (with_suggestions (VList [])
                             (with_reasons (VList [VStr "fit"])
                                (with_score (VInt 35) matched))), tt))
        by (vm_compute; reflexivity).
      assert (Hlow : below 50
                       (score (with_suggestions (VList [])
                                 (with_reasons (VList [VStr "fit"])
                                    (with_score (VInt 35) matched)))))
        by (apply below_int; lia).
      rewrite (proj1 (proj2 (proj2 (proj2
                 (suggest_iff_score_below_50 env_35 _)))
                 matched tt tt 0%nat Hs) Hlow).
      vm_compute. reflexivity.
Defined.

(** Five gaps give the first three, rendered. *)
Lemma suggest_improvements_from_gaps_witness :
  suggestions (with_score (VInt 35) matched) = VList []
  /\ match_data (with_score (VInt 35) matched) = VDict five_gaps_map
  /\ call_node (suggest_improvements env_35) (with_score (VInt 35) matched) tt
     = (Ret (with_suggestions three_suggestions (with_score (VInt 35) matched)),
        tt).
Proof.
  split; [reflexivity |]. split; [reflexivity |].
  destruct (suggest_improvements_from_gaps env_35
              (with_score (VInt 35) matched) tt five_gaps_map
              eq_refl eq_refl) as [H _].
  refine (proj1 (H [VStr "Kubernetes"; VStr "AWS"; VStr "Leadership";
                    VStr "Security"; VStr "Testing"] _ _)).
  - vm_compute. reflexivity.
  - discriminate.
Defined.

(** A state that has suggestions passes through unchanged. *)
Lemma suggest_improvements_idempotent_witness :
  truthy (suggestions final_35) = true
  /\ call_node (suggest_improvements env_35) final_35 tt = (Ret final_35, tt).
Proof.
  split; [reflexivity |].
  apply (proj1 (suggest_improvements_idempotent env_35)). reflexivity.
Defined.

(** The blank resume keeps its error through ExtractData and MatchJD. *)
Lemma error_kept_by_later_stages_witness :
  error final_blank <> ""
  /\ call_node (extract_data env_blank) final_blank tt = (Ret final_blank, tt)
  /\ call_node (match_jd env_blank) final_blank tt = (Ret final_blank, tt).
Proof.
  assert (H : error final_blank <> "") by discriminate.
  split; [exact H |].
  destruct (error_kept_by_later_stages env_blank final_blank tt H)
    as (He & Hm & _).
  split; [exact He | exact Hm].
Defined.

(** The two tags: a timed-out call, and a reply that is a bare number; and
    the state tagged "Data extraction error" traced back to that number. *)
Lemma extract_data_failure_tags_witness :
  error (with_resume_text "Python developer" fresh) = ""
  /\ (exists st',
        call_node (extract_data env_extraction_timeout)
                  (with_resume_text "Python developer" fresh) tt
        = (Ret st', tt)
        /\ error st' = "Extraction error: timeout")
  /\ (exists st',
        call_node (extract_data env_extraction_number)
                  (with_resume_text "Python developer" fresh) tt
        = (Ret st', tt)
        /\ error st' = "Data extraction error: <interpreter error>"
        /\ resume_data st' = VDict ∅
        /\ exists v,
             extract_resume_data_try env_extraction_number
               "Python developer" tt = (Ret v, tt)
             /\ forall m, v <> VDict m).
Proof.
  split; [reflexivity |]. split.
  - destruct (extract_data_failure_tags env_extraction_timeout
                (with_resume_text "Python developer" fresh) tt eq_refl)
      as [H _].
    eexists. split; [exact (H timeout tt eq_refl) | reflexivity].
  - destruct (extract_data_failure_tags env_extraction_number
                (with_resume_text "Python developer" fresh) tt eq_refl)
      as (_ & H & Honly).
    pose proof (H (VInt 5) (NotIterable (VInt 5)) tt eq_refl
                  (or_introl eq_refl)) as Hrun.
    eexists. split; [exact Hrun |].
    split; [reflexivity |]. split; [reflexivity |].
    destruct (Honly _ _ Hrun eq_refl) as (v & e & Htry & _ & Hv & _).
    exists v. split; [exact Htry | exact Hv].
Defined.

(** The batch of two uploads returns two records. *)
Lemma batch_one_record_per_resume_witness :
  exists rs w',
    process_multiple_resumes env_35 "Needs Python, 3+ years" two_uploads tt
    = (Ret rs, w')
    /\ Forall2 is_record_of two_uploads rs.
Proof.
  apply (proj2 (batch_one_record_per_resume env_35)).
  - intros content []. eexists _, _. reflexivity.
  - intros path []. exists tt. reflexivity.
  - intros j a b c [] v [] H. injection H as <-.
    exists five_gaps_map. split; [reflexivity |].
    intros g Hg. vm_compute in Hg. injection Hg as <-. eexists. reflexivity.
  - intros j a b c [] v [] H. injection H as <-.
    intros m s Hm Hs. injection Hm as <-.
    vm_compute in Hs. injection Hs as <-. exact I.
Defined.

(** The scoring wrapper turns the timeout into its default reply. *)
Lemma wrappers_never_raise_witness :
  score_candidate env_scoring_timeout "Needs Python, 3+ years"
                  a_profile five_gaps tt
  = (Ret (scoring_failed "timeout"), tt).
Proof.
  destruct (proj2 (proj2 (wrappers_never_raise env_scoring_timeout))
              "Needs Python, 3+ years" a_profile five_gaps tt)
    as (v & w' & Hrun & Hv).
  change (v = scoring_failed "timeout" /\ w' = tt) in Hv.
  destruct Hv as [-> ->]. exact Hrun.
Defined.

(** * Beyond the claims *)

Ltac project_state :=
  cbn [jd resume_file_path resume_text resume_data match_data score reasons
       suggestions candidate_name error
       with_resume_text with_resume_data with_match_data with_score
       with_reasons with_suggestions with_error initial_state].

Ltac project_state_in H :=
  cbn [jd resume_file_path resume_text resume_data match_data score reasons
       suggestions candidate_name error
       with_resume_text with_resume_data with_match_data with_score
       with_reasons with_suggestions with_error initial_state] in H.

Section Further.

Context {world : Type} (env : Env world).

Implicit Types (st : ScreeningState) (w : world) (v : value) (e : exc).

(** ** LoadResume *)

Lemma rstrip_cons_nonspace (a : Ascii.ascii) (s : string) :
  is_space a = false -> rstrip (String a s) <> "".
Proof.
  intros Ha. cbn [rstrip]. destruct (rstrip s); [rewrite Ha |]; discriminate.
Qed.

Lemma strip_empty_iff (s : string) : strip s = "" <-> all_space s = true.
Proof.
  unfold strip. induction s as [|a s IH]; cbn [lstrip all_space].
  - split; reflexivity.
  - destruct (is_space a) eqn:Ha; cbn [andb]; [exact IH |].
    split; [| discriminate].
    intros H. exfalso. exact (rstrip_cons_nonspace a s Ha H).
Qed.

Lemma truthy_strip (s : string) :
  truthy (VStr (strip s)) = negb (all_space s).
Proof.
  destruct (all_space s) eqn:Hs.
  - apply strip_empty_iff in Hs. rewrite Hs. reflexivity.
  - apply truthy_str_true. intros H. apply strip_empty_iff in H. congruence.
Qed.

Lemma all_space_app (s t : string) :
  all_space (s ++ t) = all_space s && all_space t.
Proof.
  induction s as [|a s IH]; [reflexivity |].
  change (is_space a && all_space (s ++ t)
          = is_space a && all_space s && all_space t).
  rewrite IH. apply andb_assoc.
Qed.

Lemma all_space_concat (pages : list string) :
  Forall (fun page => all_space page = true) pages ->
  all_space (String.concat newline pages) = true.
Proof.
  induction 1 as [|page rest Hp Hrest IH]; [reflexivity |].
  cbn [String.concat]. destruct rest as [|page' rest']; [exact Hp |].
  rewrite !all_space_app, Hp, IH. reflexivity.
Qed.

(** X1.  LoadResume never raises, whatever the reader does, and it leaves
    the state in one of two shapes: no error and a text with something other
    than white space in it, or an error and no text.  It touches no other
    field. *)
Theorem load_resume_text_or_error st w :
  exists st' w',
    call_node (load_resume env) st w = (Ret st', w')
    /\ (error st' = "" /\ all_space (resume_text st') = false
        \/ error st' <> "" /\ resume_text st' = "")
    /\ jd st' = jd st /\ resume_file_path st' = resume_file_path st
    /\ resume_data st' = resume_data st /\ match_data st' = match_data st
    /\ score st' = score st /\ reasons st' = reasons st
    /\ suggestions st' = suggestions st
    /\ candidate_name st' = candidate_name st.
Proof.
  rewrite load_resume_run.
  destruct (loader_load env (resume_file_path st) w) as [[pages|e] w'].
  - rewrite truthy_strip.
    destruct (all_space (String.concat newline pages)) eqn:Hs; cbn [negb];
      eexists _, _; (split; [reflexivity |]); (split; [| repeat split]).
    + right. split; [discriminate | reflexivity].
    + left. split; [reflexivity | exact Hs].
  - eexists _, _. split; [reflexivity |]. split; [| repeat split].
    right. split; [discriminate | reflexivity].
Qed.

(** X2.  A document whose pages hold nothing but white space - or that has
    no page at all - is reported as "Empty PDF or failed to extract text",
    with an empty text; a reader that raises is reported as
    "PDF loading error: <message>". *)
Theorem load_resume_blank_or_unreadable st w :
  (forall pages w',
      loader_load env (resume_file_path st) w = (Ret pages, w') ->
      Forall (fun page => all_space page = true) pages ->
      call_node (load_resume env) st w
      = (Ret (with_resume_text ""
                (with_error "Empty PDF or failed to extract text" st)), w'))
  /\ (forall e w',
        loader_load env (resume_file_path st) w = (Raise e, w') ->
        call_node (load_resume env) st w
        = (Ret (with_resume_text ""
                  (with_error ("PDF loading error: " ++ exc_str env e) st)),
           w')).
Proof.
  split.
  - intros pages w' Hload Hblank.
    rewrite load_resume_run, Hload, truthy_strip,
      (all_space_concat _ Hblank). reflexivity.
  - intros e w' Hload. rewrite load_resume_run, Hload. reflexivity.
Qed.

(** ** A failure before scoring *)

(** The rest of a run that reaches ScoreCandidate with an error and without
    usable gaps: score 0, the reason quoting the error, the generic
    suggestion; the oracle is left alone. *)
Lemma run_from_score_candidate_failed fuel st w g :
  error st <> "" ->
  py_get (match_data st) "gaps" (VList []) = Ret g ->
  truthy g = false ->
  run_from (create_screening_workflow env) (S (S fuel)) "score_candidate" st w
  = (Ret (with_suggestions (VList [generic_suggestion])
            (with_reasons (VList [VStr ("Processing failed: " ++ error st)])
               (with_score (VInt 0) st))), w).
Proof.
  intros Herr Hg Ht.
  rewrite run_from_score_candidate, score_candidate_node_run,
    (truthy_str_true _ Herr).
  cbn [score with_suggestions with_reasons with_score py_lt].
  change (0 <? 50) with true. cbv iota.
  rewrite suggest_improvements_run.
  cbn [suggestions match_data with_suggestions with_reasons with_score truthy].
  rewrite Hg, Ht. reflexivity.
Qed.

Lemma invoke_run3 st w :
  invoke (create_screening_workflow env) st w =
  match call_node (load_resume env) st w with
  | (Ret s1, w1) =>
      match call_node (extract_data env) s1 w1 with
      | (Ret s2, w2) =>
          match call_node (match_jd env) s2 w2 with
          | (Ret s3, w3) =>
              run_from (create_screening_workflow env) 2 "score_candidate" s3 w3
          | (Raise e, w3) => (Raise e, w3)
          end
      | (Raise e, w2) => (Raise e, w2)
      end
  | (Raise e, w1) => (Raise e, w1)
  end.
Proof.
  rewrite invoke_run.
  destruct (call_node (load_resume env) st w) as [[s1|e] w1]; [| reflexivity].
  destruct (call_node (extract_data env) s1 w1) as [[s2|e] w2]; [| reflexivity].
  destruct (call_node (match_jd env) s2 w2) as [[s3|e] w3]; [| reflexivity].
  symmetry. apply run_from_score_candidate.
Qed.

(** Once a stage before MatchJD has set an error, the run is decided. *)
Lemma invoke_failed_before_matching st0 w s2 w2 g :
  (exists s1 w1, call_node (load_resume env) st0 w = (Ret s1, w1)
                 /\ call_node (extract_data env) s1 w1 = (Ret s2, w2)) ->
  error s2 <> "" ->
  py_get (match_data s2) "gaps" (VList []) = Ret g ->
  truthy g = false ->
  invoke (create_screening_workflow env) st0 w
  = (Ret (with_suggestions (VList [generic_suggestion])
            (with_reasons (VList [VStr ("Processing failed: " ++ error s2)])
               (with_score (VInt 0) s2))), w2).
Proof.
  intros (s1 & w1 & H1 & H2) Herr Hg Ht.
  rewrite invoke_run3, H1, H2, match_jd_run, (truthy_str_true _ Herr).
  apply (run_from_score_candidate_failed _ _ _ g); assumption.
Qed.

Lemma process_resume_unreadable (j path name msg : string) w r w1 :
  loader_load env path w = (r, w1) ->
  (exists e, r = Raise e /\ msg = "PDF loading error: " ++ exc_str env e)
  \/ (exists pages, r = Ret pages
                    /\ Forall (fun page => all_space page = true) pages
                    /\ msg = "Empty PDF or failed to extract text") ->
  process_resume env j path name w = (Ret (failure_record name msg), w1).
Proof.
  intros Hload Hr.
  pose (s2 := with_resume_text "" (with_error msg (initial_state j path name))).
  assert (H1 : call_node (load_resume env) (initial_state j path name) w
               = (Ret s2, w1)).
  { rewrite load_resume_run. project_state. rewrite Hload.
    destruct Hr as [(e & -> & ->)|(pages & -> & Hblank & ->)].
    - reflexivity.
    - rewrite truthy_strip, (all_space_concat _ Hblank). reflexivity. }
  assert (Hmsg : error s2 <> "").
  { unfold s2. project_state.
    destruct Hr as [(e & _ & ->)|(pages & _ & _ & ->)]; discriminate. }
  assert (H2 : call_node (extract_data env) s2 w1 = (Ret s2, w1)).
  { rewrite extract_data_run, (truthy_str_true _ Hmsg). reflexivity. }
  rewrite process_resume_run.
  rewrite (invoke_failed_before_matching _ _ s2 w1 (VList []));
    [| exists s2, w1; split; assumption | exact Hmsg
     | reflexivity | reflexivity].
  unfold s2, failure_record. project_state. reflexivity.
Qed.

(** X3.  A resume whose PDF cannot be read, or holds only white space, comes
    back as the record with score 0, the reason "Processing failed: ..."
    quoting the error, the generic suggestion, no matches and no gaps; the
    world is the one the reader left, so the oracle was not called. *)
Theorem unreadable_resume_record (j path name : string) w :
  (forall e w1,
      loader_load env path w = (Raise e, w1) ->
      process_resume env j path name w
      = (Ret (failure_record name ("PDF loading error: " ++ exc_str env e)), w1))
  /\ (forall pages w1,
        loader_load env path w = (Ret pages, w1) ->
        Forall (fun page => all_space page = true) pages ->
        process_resume env j path name w
        = (Ret (failure_record name "Empty PDF or failed to extract text"), w1)).
Proof.
  split.
  - intros e w1 Hload.
    apply (process_resume_unreadable _ _ _ _ _ _ _ Hload).
    left. exists e. split; reflexivity.
  - intros pages w1 Hload Hblank.
    apply (process_resume_unreadable _ _ _ _ _ _ _ Hload).
    right. exists pages. repeat split. exact Hblank.
Qed.

(** ** A failure of the extraction *)

Lemma load_resume_readable (j path name : string) w pages w1 :
  loader_load env path w = (Ret pages, w1) ->
  all_space (String.concat newline pages) = false ->
  call_node (load_resume env) (initial_state j path name) w
  = (Ret (with_error ""
            (with_resume_text (String.concat newline pages)
               (initial_state j path name))), w1).
Proof.
  intros Hload Htext. rewrite load_resume_run. project_state.
  rewrite Hload, truthy_strip, Htext. reflexivity.
Qed.

Lemma process_resume_extraction_failed (j path name : string) w pages w1 e w2 :
  loader_load env path w = (Ret pages, w1) ->
  all_space (String.concat newline pages) = false ->
  extract_resume_data_try env (String.concat newline pages) w1 = (Raise e, w2) ->
  process_resume env j path name w
  = (Ret (failure_record name ("Extraction error: " ++ exc_str env e)), w2).
Proof.
  intros Hload Htext Htry.
  pose proof (load_resume_readable j path name _ _ _ Hload Htext) as H1.
  set (s1 := with_error "" _) in H1.
  pose (s2 := with_error ("Extraction error: " ++ exc_str env e)
                (with_resume_data (extraction_failed (exc_str env e)) s1)).
  assert (H2 : call_node (extract_data env) s1 w1 = (Ret s2, w2)).
  { rewrite extract_data_run. unfold s2, s1. project_state.
    change (truthy (VStr "")) with false. cbv iota.
    rewrite extract_resume_data_run, Htry.
    destruct (extraction_failed_error (exc_str env e)) as [-> ->].
    reflexivity. }
  rewrite process_resume_run.
  rewrite (invoke_failed_before_matching _ _ s2 w2 (VList []));
    [| exists s1, w1; split; assumption | discriminate
     | reflexivity | reflexivity].
  unfold s2, s1, failure_record. project_state. reflexivity.
Qed.

(** X4.  When the extraction call or its parser fails on a readable resume,
    the resume comes back as the record with score 0 and the error
    "Extraction error: <message>", without matches or gaps; the world is the
    one the failed call left, so neither matching nor scoring was asked. *)
Theorem extraction_failure_record (j path name : string) w pages w1 e w2 :
  loader_load env path w = (Ret pages, w1) ->
  all_space (String.concat newline pages) = false ->
  extract_resume_data_try env (String.concat newline pages) w1 = (Raise e, w2) ->
  process_resume env j path name w
  = (Ret (failure_record name ("Extraction error: " ++ exc_str env e)), w2).
Proof. exact (process_resume_extraction_failed j path name w pages w1 e w2). Qed.

End Further.

(** ** Without an API key *)

(** X5.  Without an API key - the variable unset or empty - [get_llm]
    raises before any client is built, and a readable resume comes back with
    score 0 and the error "Extraction error: GOOGLE_API_KEY not found ...";
    the world is the one the reader left. *)
Theorem missing_api_key_record {world : Type} (env : Env world)
    (getenv : string -> world -> option string)
    (client : string -> M world unit) (j path name : string)
    (w : world) pages w1 :
  loader_load env path w = (Ret pages, w1) ->
  all_space (String.concat newline pages) = false ->
  getenv "GOOGLE_API_KEY" w1 = None \/ getenv "GOOGLE_API_KEY" w1 = Some "" ->
  process_resume (with_key_lookup env getenv client) j path name w
  = (Ret (failure_record name ("Extraction error: " ++ key_not_found)), w1).
Proof.
  intros Hload Htext Hkey.
  apply (process_resume_extraction_failed
           (with_key_lookup env getenv client) j path name w pages w1
           (External TransportFailure key_not_found) w1 Hload Htext).
  unfold extract_resume_data_try, bind.
  cbn [get_llm with_key_lookup]. unfold get_llm_of.
  destruct Hkey as [-> | ->]; reflexivity.
Qed.

Section Further2.

Context {world : Type} (env : Env world).

Implicit Types (st : ScreeningState) (w : world) (v : value) (e : exc).

(** ** A reply that is not an object *)

Lemma py_getitem_non_object v (k : string) :
  (forall m, v <> VDict m) -> py_getitem v k = Raise (BadSubscript v).
Proof. destruct v; intros H; try reflexivity. destruct (H m eq_refl). Qed.

Lemma py_get_non_object v (k : string) (d : value) :
  (forall m, v <> VDict m) -> py_get v k d = Raise (AttributeError v).
Proof. destruct v; intros H; try reflexivity. destruct (H m eq_refl). Qed.

Lemma prefix_app (s t : string) : String.prefix s (s ++ t) = true.
Proof.
  induction s as [|a s IH].
  - destruct t; reflexivity.
  - change (match Ascii.ascii_dec a a with
            | left _ => String.prefix s (s ++ t)
            | right _ => false
            end = true).
    destruct (Ascii.ascii_dec a a) as [_|Hne]; [exact IH | congruence].
Qed.

Lemma py_get_empty (k : string) (d : value) : py_get (VDict ∅) k d = Ret d.
Proof. cbn. rewrite lookup_empty. reflexivity. Qed.

Lemma match_to_jd_non_object (j : string) v w :
  (forall m, v <> VDict m) ->
  exists msg w', match_to_jd env j v w = (Ret (matching_failed msg), w').
Proof.
  intros Hv. rewrite match_to_jd_run.
  unfold match_to_jd_try, bind, lift_outcome.
  destruct (get_llm env w) as [[[]|e] w1].
  - rewrite (py_get_non_object _ _ _ Hv). eexists _, _. reflexivity.
  - eexists _, _. reflexivity.
Qed.

Lemma invoke_failed_before_scoring st0 w s3 w3 g :
  (exists s1 w1 s2 w2,
      call_node (load_resume env) st0 w = (Ret s1, w1)
      /\ call_node (extract_data env) s1 w1 = (Ret s2, w2)
      /\ call_node (match_jd env) s2 w2 = (Ret s3, w3)) ->
  error s3 <> "" ->
  py_get (match_data s3) "gaps" (VList []) = Ret g ->
  truthy g = false ->
  invoke (create_screening_workflow env) st0 w
  = (Ret (with_suggestions (VList [generic_suggestion])
            (with_reasons (VList [VStr ("Processing failed: " ++ error s3)])
               (with_score (VInt 0) s3))), w3).
Proof.
  intros (s1 & w1 & s2 & w2 & H1 & H2 & H3) Herr Hg Ht.
  rewrite invoke_run3, H1, H2, H3.
  apply (run_from_score_candidate_failed env _ _ _ g); assumption.
Qed.

(** X6.  When the extraction chain answers a readable resume with something
    that is not an object (a list, a text, a number, null), nothing raises
    out of the run: the resume comes back as the record with score 0 and an
    error tagged "Data extraction error" or "Matching error". *)
Theorem non_object_extraction_reply (j path name : string) w pages w1 v w2 :
  loader_load env path w = (Ret pages, w1) ->
  all_space (String.concat newline pages) = false ->
  extract_resume_data_try env (String.concat newline pages) w1 = (Ret v, w2) ->
  (forall m, v <> VDict m) ->
  exists msg wf,
    process_resume env j path name w = (Ret (failure_record name msg), wf)
    /\ (String.prefix "Data extraction error: " msg = true
        \/ String.prefix "Matching error: " msg = true).
Proof.
  intros Hload Htext Htry Hv.
  pose proof (load_resume_readable env j path name _ _ _ Hload Htext) as H1.
  remember (with_error "" (with_resume_text (String.concat newline pages)
                             (initial_state j path name))) as s1 eqn:Hs1.
  assert (Herr1 : error s1 = "") by (rewrite Hs1; reflexivity).
  assert (Htext1 : resume_text s1 = String.concat newline pages)
    by (rewrite Hs1; reflexivity).
  assert (Hmd1 : match_data s1 = VDict ∅) by (rewrite Hs1; reflexivity).
  assert (Hdata : forall e0,
             call_node (extract_data env) s1 w1
             = (Ret (with_resume_data (VDict ∅)
                       (with_error ("Data extraction error: "
                                    ++ exc_str env e0) s1)), w2) ->
             exists msg wf,
               process_resume env j path name w
               = (Ret (failure_record name msg), wf)
               /\ (String.prefix "Data extraction error: " msg = true
                   \/ String.prefix "Matching error: " msg = true)).
  { intros e0 H2.
    exists ("Data extraction error: " ++ exc_str env e0), w2. split.
    - rewrite process_resume_run.
      rewrite (invoke_failed_before_matching env (initial_state j path name) w
                 (with_resume_data (VDict ∅)
                    (with_error ("Data extraction error: " ++ exc_str env e0)
                       s1)) w2 (VList []));
        [| eexists _, _; split; [exact H1 | exact H2] | discriminate
         | project_state; rewrite Hmd1; reflexivity | reflexivity].
      project_state. rewrite Hmd1, !py_get_empty. reflexivity.
    - left. apply prefix_app. }
  pose proof (extract_data_run env s1 w1) as H2.
  rewrite Herr1, Htext1, extract_resume_data_run, Htry in H2.
  change (truthy (VStr "")) with false in H2. cbv iota in H2.
  destruct (py_in "error" v) as [[|]|e'] eqn:Hin.
  - rewrite (py_getitem_non_object _ _ Hv) in H2. exact (Hdata _ H2).
  - destruct (match_to_jd_non_object j v w2 Hv) as (msg' & w3 & Hm).
    destruct (matching_failed_error msg') as (Min & Mget & Mmatches & Mgaps).
    pose proof (match_jd_run env (with_resume_data v s1) w2) as H3.
    revert H3. project_state. rewrite Herr1.
    change (truthy (VStr "")) with false. cbv iota.
    replace (jd s1) with j by (rewrite Hs1; reflexivity).
    rewrite Hm, Min, Mget. intros H3.
    exists ("Matching error: " ++ msg'), w3.
    split; [| right; apply prefix_app].
    rewrite process_resume_run.
    rewrite (invoke_failed_before_scoring (initial_state j path name) w
               (with_error ("Matching error: " ++ msg')
                  (with_match_data (matching_failed msg')
                     (with_resume_data v s1))) w3 (VList []));
      [| eexists _, _, _, _; split; [exact H1 | split; [exact H2 | exact H3]]
       | discriminate
       | project_state; exact Mgaps | reflexivity].
    project_state. rewrite Mmatches, Mgaps. reflexivity.
  - exact (Hdata _ H2).
Qed.

(** ** MatchJD *)

(** X7.  On a state without error, a failure inside [match_to_jd] - of the
    call or of the parser - is tagged "Matching error" and the wrapper's
    default reply is stored.  A [resume_data] that is not an object is such a
    failure: the look-up of its skills raises inside the wrapper, after
    [get_llm] and before the chain is asked.  The tag "JD matching error",
    with [match_data] reset to the empty object, is used when looking for
    ["error"] in a reply that did arrive raises, and only then: a state that
    leaves MatchJD with that tag comes of a reply that arrived, that is not
    an object, and on which the look-up raised. *)
Theorem match_jd_failure_tags st w :
  error st = "" ->
  (forall e w',
      match_to_jd_try env (jd st) (resume_data st) w = (Raise e, w') ->
      call_node (match_jd env) st w
      = (Ret (with_error ("Matching error: " ++ exc_str env e)
                (with_match_data
                   (VDict {[ "matches" := VList []; "gaps" := VList [];
                             "error" := VStr (exc_str env e) ]}) st)), w'))
  /\ ((forall m, resume_data st <> VDict m) ->
      forall w', get_llm env w = (Ret tt, w') ->
      match_to_jd_try env (jd st) (resume_data st) w
      = (Raise (AttributeError (resume_data st)), w'))
  /\ (forall v e w',
        match_to_jd_try env (jd st) (resume_data st) w = (Ret v, w') ->
        py_in "error" v = Raise e
        \/ (py_in "error" v = Ret true /\ py_getitem v "error" = Raise e) ->
        call_node (match_jd env) st w
        = (Ret (with_match_data (VDict ∅)
                  (with_error ("JD matching error: " ++ exc_str env e) st)),
           w'))
  /\ (forall st' w',
        call_node (match_jd env) st w = (Ret st', w') ->
        String.prefix "JD matching error: " (error st') = true ->
        exists v e,
          match_to_jd_try env (jd st) (resume_data st) w = (Ret v, w')
          /\ (py_in "error" v = Raise e
              \/ (py_in "error" v = Ret true
                  /\ py_getitem v "error" = Raise e))
          /\ (forall m, v <> VDict m)
          /\ st' = with_match_data (VDict ∅)
                     (with_error ("JD matching error: " ++ exc_str env e) st)).
Proof.
  intros Herr. split; [| split; [| split]].
  - intros e w' Htry.
    rewrite match_jd_run, Herr, match_to_jd_run, Htry.
    change (truthy (VStr "")) with false. cbv iota.
    destruct (matching_failed_error (exc_str env e)) as (-> & -> & _).
    reflexivity.
  - intros Hrd w' Hllm.
    unfold match_to_jd_try, bind, lift_outcome.
    rewrite Hllm, (py_get_non_object _ _ _ Hrd). reflexivity.
  - intros v e w' Htry Hbad.
    rewrite match_jd_run, Herr, match_to_jd_run, Htry.
    change (truthy (VStr "")) with false. cbv iota.
    destruct Hbad as [Hin|[Hin Hget]].
    + rewrite Hin. reflexivity.
    + rewrite Hin, Hget. reflexivity.
  - intros st' w'.
    rewrite match_jd_run, Herr, match_to_jd_run.
    change (truthy (VStr "")) with false. cbv iota.
    destruct (match_to_jd_try env (jd st) (resume_data st) w)
      as [[v|e] w1] eqn:Htry.
    + destruct (py_in "error" v) as [[|]|e] eqn:Hin.
      * destruct (py_getitem v "error") as [x|e] eqn:Hget.
        -- intros [= <- <-] Hp. cbn in Hp. discriminate Hp.
        -- intros [= <- <-] _. exists v, e.
           split; [reflexivity |]. split; [right; split; assumption |].
           split; [| reflexivity].
           intros m ->. destruct (error_lookup_of_object m) as [_ H].
           destruct (H Hin) as [x Hx]. congruence.
      * intros [= <- <-] Hp. cbn in Hp. rewrite Herr in Hp. discriminate Hp.
      * intros [= <- <-] _. exists v, e.
        split; [reflexivity |]. split; [left; exact Hin |].
        split; [| reflexivity].
        intros m ->. discriminate Hin.
    + destruct (matching_failed_error (exc_str env e)) as (-> & -> & _).
      intros [= <- <-] Hp. cbn in Hp. discriminate Hp.
Qed.

(** ** SuggestImprovements, again *)

(** Whatever SuggestImprovements returns has suggestions. *)
Lemma suggest_improvements_leaves_some st w st' w' :
  call_node (suggest_improvements env) st w = (Ret st', w') ->
  truthy (suggestions st') = true.
Proof.
  rewrite suggest_improvements_run.
  destruct (truthy (suggestions st)) eqn:Ht.
  { intros [= <- _]. exact Ht. }
  destruct (py_get (match_data st) "gaps" (VList [])) as [gaps|e];
    [| discriminate].
  destruct (truthy gaps) eqn:Hg.
  - destruct (py_slice_items gaps 3) as [items|e] eqn:Hi; [| discriminate].
    intros [= <- _]. project_state.
    pose proof (slice_items_nonempty _ _ _ Hg Hi) as Hne.
    destruct items; [congruence | reflexivity].
  - intros [= <- _]. reflexivity.
Qed.

(** X8.  A run that returns with a score below 50 returns with suggestions:
    those of the scoring reply, or else up to three drawn from the gaps, or
    else the generic one. *)
Theorem weak_result_has_suggestions st0 w0 stf wf :
  invoke (create_screening_workflow env) st0 w0 = (Ret stf, wf) ->
  below 50 (score stf) ->
  truthy (suggestions stf) = true.
Proof.
  rewrite invoke_run.
  destruct (call_node (load_resume env) st0 w0) as [[s1|e] w1]; [| discriminate].
  destruct (call_node (extract_data env) s1 w1) as [[s2|e] w2]; [| discriminate].
  destruct (call_node (match_jd env) s2 w2) as [[s3|e] w3]; [| discriminate].
  destruct (call_node (score_candidate_node env) s3 w3) as [[s4|e] w4];
    [| discriminate].
  destruct (py_lt (score s4) 50) as [[|]|e] eqn:Hlt; [| | discriminate].
  - intros H _. exact (suggest_improvements_leaves_some _ _ _ _ H).
  - intros [= <- <-] Hlow. apply py_lt_below in Hlow. congruence.
Qed.

Lemma take_length_le {A} (n : nat) (l : list A) : (length (take n l) <= n)%nat.
Proof. rewrite length_take. lia. Qed.

(** X9.  When SuggestImprovements has to make up the suggestions itself, it
    makes between one and three of them, each a text: either the generic
    one, or "Develop skills/experience in: ..." *)
Theorem made_up_suggestions_are_one_to_three st w st' w' :
  truthy (suggestions st) = false ->
  call_node (suggest_improvements env) st w = (Ret st', w') ->
  exists l,
    suggestions st' = VList l
    /\ (1 <= length l <= 3)%nat
    /\ Forall (fun x => x = generic_suggestion
                       \/ exists t : string,
                            x = VStr ("Develop skills/experience in: " ++ t)) l.
Proof.
  intros Ht. rewrite suggest_improvements_run, Ht.
  destruct (py_get (match_data st) "gaps" (VList [])) as [gaps|e];
    [| discriminate].
  destruct (truthy gaps) eqn:Hg.
  - destruct (py_slice_items gaps 3) as [items|e] eqn:Hi; [| discriminate].
    intros [= <- _]. project_state. eexists. split; [reflexivity |].
    pose proof (slice_items_nonempty _ _ _ Hg Hi) as Hne.
    assert (Hlen : (length items <= 3)%nat).
    { destruct gaps; cbn in Hi; inversion Hi; apply take_length_le. }
    rewrite length_map. split.
    + destruct items; [congruence | cbn in Hlen |- *; lia].
    + apply Forall_forall. intros x Hx.
      apply list_elem_of_In, in_map_iff in Hx as (gap & <- & _).
      right. eexists. reflexivity.
  - intros [= <- _]. project_state. eexists. split; [reflexivity |].
    split; [cbn; lia |]. constructor; [left; reflexivity | constructor].
Qed.

(** ** A run without error *)

Lemma load_resume_clean st w st' w' :
  call_node (load_resume env) st w = (Ret st', w') ->
  error st' = "" ->
  exists pages,
    loader_load env (resume_file_path st) w = (Ret pages, w')
    /\ all_space (String.concat newline pages) = false
    /\ st' = with_error "" (with_resume_text (String.concat newline pages) st).
Proof.
  rewrite load_resume_run.
  destruct (loader_load env (resume_file_path st) w) as [[pages|e] w1].
  - rewrite truthy_strip.
    destruct (all_space (String.concat newline pages)) eqn:Hs; cbn [negb];
      intros [= <- <-] Herr; [(project_state_in Herr; discriminate Herr) |].
    exists pages. repeat split. exact Hs.
  - intros [= <- <-] Herr. (project_state_in Herr; discriminate Herr).
Qed.

Lemma truthy_error_empty st : error st = "" -> truthy (VStr (error st)) = false.
Proof. intros ->. reflexivity. Qed.

Lemma extract_data_clean st w st' w' :
  call_node (extract_data env) st w = (Ret st', w') ->
  error st' = "" ->
  error st = ""
  /\ exists rd,
       extract_resume_data_try env (resume_text st) w = (Ret rd, w')
       /\ py_in "error" rd = Ret false
       /\ st' = with_resume_data rd st.
Proof.
  rewrite extract_data_run.
  destruct (truthy (VStr (error st))) eqn:Ht.
  { intros [= <- <-] Herr. rewrite (truthy_error_empty _ Herr) in Ht.
    discriminate Ht. }
  apply truthy_str_false in Ht.
  rewrite extract_resume_data_run.
  destruct (extract_resume_data_try env (resume_text st) w) as [[rd|e] w1].
  - destruct (py_in "error" rd) as [[|]|e] eqn:Hin.
    + destruct (py_getitem rd "error") as [x|e];
        intros [= <- <-] Herr; (project_state_in Herr; discriminate Herr).
    + intros [= <- <-] _. split; [exact Ht |]. exists rd.
      split; [reflexivity | split; [exact Hin | reflexivity]].
    + intros [= <- <-] Herr. (project_state_in Herr; discriminate Herr).
  - destruct (extraction_failed_error (exc_str env e)) as [-> ->].
    intros [= <- <-] Herr. (project_state_in Herr; discriminate Herr).
Qed.

Lemma match_jd_clean st w st' w' :
  call_node (match_jd env) st w = (Ret st', w') ->
  error st' = "" ->
  error st = ""
  /\ exists md,
       match_to_jd_try env (jd st) (resume_data st) w = (Ret md, w')
       /\ py_in "error" md = Ret false
       /\ st' = with_match_data md st.
Proof.
  rewrite match_jd_run.
  destruct (truthy (VStr (error st))) eqn:Ht.
  { intros [= <- <-] Herr. rewrite (truthy_error_empty _ Herr) in Ht.
    discriminate Ht. }
  apply truthy_str_false in Ht.
  rewrite match_to_jd_run.
  destruct (match_to_jd_try env (jd st) (resume_data st) w) as [[md|e] w1].
  - destruct (py_in "error" md) as [[|]|e] eqn:Hin.
    + destruct (py_getitem md "error") as [x|e];
        intros [= <- <-] Herr; (project_state_in Herr; discriminate Herr).
    + intros [= <- <-] _. split; [exact Ht |]. exists md.
      split; [reflexivity | split; [exact Hin | reflexivity]].
    + intros [= <- <-] Herr. (project_state_in Herr; discriminate Herr).
  - destruct (matching_failed_error (exc_str env e)) as (-> & -> & _).
    intros [= <- <-] Herr. (project_state_in Herr; discriminate Herr).
Qed.

Lemma score_candidate_node_clean st w st' w' :
  call_node (score_candidate_node env) st w = (Ret st', w') ->
  error st' = "" ->
  error st = ""
  /\ resume_data st' = resume_data st /\ match_data st' = match_data st
  /\ exists m : gmap string value,
       score_candidate_try env (jd st) (resume_data st) (match_data st) w
       = (Ret (VDict m), w')
       /\ m !! "error" = None
       /\ score st' = default (VInt 0) (m !! "score")
       /\ reasons st' = default (VList []) (m !! "reasons").
Proof.
  intros Hrun Herr.
  destruct (score_candidate_node_cases env st w)
    as (st1 & w1 & Hrun1 & _ & Hrd & Hmd & Hcases).
  rewrite Hrun in Hrun1. injection Hrun1 as <- <-.
  destruct Hcases as [(Hne & E & _)
                     |[(_ & e & w0' & _ & E & _)
                     |[(_ & sd & _ & _ & E & _)
                     |(H0 & m & Htry & E & S & R)]]].
  - rewrite <- E in Hne. contradiction.
  - rewrite Herr in E. discriminate E.
  - rewrite Herr in E. discriminate E.
  - split; [exact H0 |]. split; [exact Hrd |]. split; [exact Hmd |].
    exists m. split; [exact Htry |].
    destruct (m !! "error") as [x|]; [| repeat split; assumption].
    rewrite Herr in E. discriminate E.
Qed.

(** X10.  An empty error at the end of a run certifies the whole chain: the
    reader delivered a text that is not blank, the extraction, matching and
    scoring chains each answered, none of the three answers had an ["error"]
    entry, the scoring answer was an object, and the state holds these very
    answers - profile, match result, and the score and reasons of the scoring
    answer (0 and [[]] where it has none). *)
Theorem clean_run_used_every_reply st0 w stf wf :
  invoke (create_screening_workflow env) st0 w = (Ret stf, wf) ->
  error stf = "" ->
  exists pages w1 rd w2 md w3 (m : gmap string value),
    loader_load env (resume_file_path st0) w = (Ret pages, w1)
    /\ all_space (String.concat newline pages) = false
    /\ extract_resume_data_try env (String.concat newline pages) w1
       = (Ret rd, w2)
    /\ py_in "error" rd = Ret false
    /\ match_to_jd_try env (jd st0) rd w2 = (Ret md, w3)
    /\ py_in "error" md = Ret false
    /\ score_candidate_try env (jd st0) rd md w3 = (Ret (VDict m), wf)
    /\ m !! "error" = None
    /\ resume_data stf = rd /\ match_data stf = md
    /\ score stf = default (VInt 0) (m !! "score")
    /\ reasons stf = default (VList []) (m !! "reasons").
Proof.
  intros Hrun Herr.
  assert (Hvia : exists s1 w1 s2 w2 s3 w3 s4,
             call_node (load_resume env) st0 w = (Ret s1, w1)
             /\ call_node (extract_data env) s1 w1 = (Ret s2, w2)
             /\ call_node (match_jd env) s2 w2 = (Ret s3, w3)
             /\ call_node (score_candidate_node env) s3 w3 = (Ret s4, wf)
             /\ stf = with_suggestions (suggestions stf) s4).
  { revert Hrun. rewrite invoke_run.
    destruct (call_node (load_resume env) st0 w) as [[s1|e] w1] eqn:H1;
      [| discriminate].
    destruct (call_node (extract_data env) s1 w1) as [[s2|e] w2] eqn:H2;
      [| discriminate].
    destruct (call_node (match_jd env) s2 w2) as [[s3|e] w3] eqn:H3;
      [| discriminate].
    destruct (call_node (score_candidate_node env) s3 w3) as [[s4|e] w4] eqn:H4;
      [| discriminate].
    destruct (py_lt (score s4) 50) as [[|]|e]; [| | discriminate].
    - intros H. apply suggest_improvements_frame in H as [H ->].
      exists s1, w1, s2, w2, s3, w3, s4.
      split; [reflexivity |]. split; [exact H2 |]. split; [exact H3 |].
      split; [exact H4 | exact H].
    - intros [= <- <-]. exists s1, w1, s2, w2, s3, w3, s4.
      split; [reflexivity |]. split; [exact H2 |]. split; [exact H3 |].
      split; [exact H4 | destruct s4; reflexivity]. }
  destruct Hvia as (s1 & w1 & s2 & w2 & s3 & w3 & s4 & H1 & H2 & H3 & H4 & Hf).
  assert (Hfields : error stf = error s4 /\ score stf = score s4
                    /\ reasons stf = reasons s4
                    /\ resume_data stf = resume_data s4
                    /\ match_data stf = match_data s4).
  { rewrite Hf. repeat split. }
  destruct Hfields as (Fe & Fs & Fr & Frd & Fmd).
  rewrite Fe in Herr. rewrite Fs, Fr, Frd, Fmd.
  destruct (score_candidate_node_clean _ _ _ _ H4 Herr)
    as (E3 & Srd & Smd & m & Htry4 & Hm & S & R).
  destruct (match_jd_clean _ _ _ _ H3 E3) as (E2 & md & Htry3 & Min & ->).
  destruct (extract_data_clean _ _ _ _ H2 E2) as (E1 & rd & Htry2 & Rin & ->).
  destruct (load_resume_clean _ _ _ _ H1 E1) as (pages & Hload & Htext & ->).
  revert Htry2 Htry3 Htry4 Srd Smd. project_state.
  intros Htry2 Htry3 Htry4 Srd Smd.
  exists pages, w1, rd, w2, md, w3, m.
  repeat split; assumption.
Qed.

(** ** The output record *)

(** X11.  The record of a resume is a copy of the final state of its run:
    looking a key up in it gives the candidate's name, the final score,
    reasons, suggestions and error, and the matches and gaps of the final
    match result - an empty list for each of the two that the match result
    does not have.  A record is only built of a match result that is an
    object. *)
Theorem record_copies_final_state (j path name : string) w r w' :
  process_resume env j path name w = (Ret r, w') ->
  exists stf (m md : gmap string value),
    invoke (create_screening_workflow env) (initial_state j path name) w
    = (Ret stf, w')
    /\ r = VDict m
    /\ match_data stf = VDict md
    /\ m !! "candidate" = Some (VStr name)
    /\ m !! "score" = Some (score stf)
    /\ m !! "reasons" = Some (reasons stf)
    /\ m !! "suggestions" = Some (suggestions stf)
    /\ m !! "matches" = Some (default (VList []) (md !! "matches"))
    /\ m !! "gaps" = Some (default (VList []) (md !! "gaps"))
    /\ m !! "error" = Some (VStr (error stf)).
Proof.
  rewrite process_resume_run.
  destruct (invoke _ _ w) as [[stf|e] w1]; [| discriminate].
  destruct (match_data stf) as [| | | | | |md] eqn:Hmd; try discriminate.
  cbn [py_get]. intros [= <- <-].
  exists stf. eexists. exists md.
  split; [reflexivity |]. split; [reflexivity |].
  split; [exact Hmd |].
  repeat split; vm_compute; reflexivity.
Qed.

(** ** The batch *)

(** One turn of the loop. *)
Lemma process_loop_cons (j name content : string) rest acc w :
  process_loop env j ((name, content) :: rest) acc w =
  match write_temp env content w with
  | (Ret tmp, w1) =>
      match process_resume env j tmp name w1 with
      | (r, w2) =>
          match remove_temp env tmp w2 with
          | (Ret _, w3) =>
              match r with
              | Ret record => process_loop env j rest (acc ++ [record])%list w3
              | Raise e => (Raise e, w3)
              end
          | (Raise e, w3) => (Raise e, w3)
          end
      end
  | (Raise e, w1) => (Raise e, w1)
  end.
Proof.
  cbn [process_loop]. unfold bind at 1.
  destruct (write_temp env content w) as [[tmp|e] w1]; [| reflexivity].
  unfold bind at 1, try_finally, ret. unfold bind at 1.
  destruct (process_resume env j tmp name w1) as [[r|e] w2];
    destruct (remove_temp env tmp w2) as [[[]|e'] w3]; reflexivity.
Qed.

(** The list built so far is only ever extended. *)
Lemma process_loop_acc (j : string) files acc w :
  process_loop env j files acc w =
  match process_loop env j files [] w with
  | (Ret rs, w') => (Ret (acc ++ rs)%list, w')
  | (Raise e, w') => (Raise e, w')
  end.
Proof.
  revert acc w. induction files as [|[name content] rest IH]; intros acc w.
  - cbn [process_loop]. unfold ret. rewrite app_nil_r. reflexivity.
  - rewrite !process_loop_cons.
    destruct (write_temp env content w) as [[tmp|e] w1]; [| reflexivity].
    destruct (process_resume env j tmp name w1) as [[r|e] w2];
      destruct (remove_temp env tmp w2) as [[[]|e'] w3]; try reflexivity.
    rewrite (IH (acc ++ [r])%list), (IH ([] ++ [r])%list).
    destruct (process_loop env j rest [] w3) as [[rs|e] w4]; [| reflexivity].
    rewrite <- app_assoc. reflexivity.
Qed.

Lemma process_loop_app (j : string) xs ys acc w :
  process_loop env j (xs ++ ys)%list acc w =
  match process_loop env j xs acc w with
  | (Ret rs, w') => process_loop env j ys rs w'
  | (Raise e, w') => (Raise e, w')
  end.
Proof.
  revert acc w. induction xs as [|[name content] rest IH]; intros acc w.
  - reflexivity.
  - change (((name, content) :: rest) ++ ys)%list
      with ((name, content) :: (rest ++ ys)%list).
    rewrite !process_loop_cons.
    destruct (write_temp env content w) as [[tmp|e] w1]; [| reflexivity].
    destruct (process_resume env j tmp name w1) as [[r|e] w2];
      destruct (remove_temp env tmp w2) as [[[]|e'] w3]; try reflexivity.
    apply IH.
Qed.

(** X12.  Screening two lists of uploads one after the other is screening
    their concatenation: the records of the first, then those of the second,
    the second list starting in the world the first one left; and if the
    first raises, the second is not begun. *)
Theorem batch_of_concatenation (j : string) xs ys w :
  process_multiple_resumes env j (xs ++ ys)%list w =
  match process_multiple_resumes env j xs w with
  | (Ret r1, w1) =>
      match process_multiple_resumes env j ys w1 with
      | (Ret r2, w2) => (Ret (r1 ++ r2)%list, w2)
      | (Raise e, w2) => (Raise e, w2)
      end
  | (Raise e, w1) => (Raise e, w1)
  end.
Proof.
  unfold process_multiple_resumes. rewrite process_loop_app.
  destruct (process_loop env j xs [] w) as [[r1|e] w1]; [| reflexivity].
  apply process_loop_acc.
Qed.

(** X13.  An exception that leaves the run of one upload ends the batch, but
    only after that upload's scratch file has been removed: the records made
    so far are dropped, the uploads after it are never written to disk, and
    the batch raises the same exception in the world the removal left.  If
    the removal itself raises, that exception is the one the batch raises -
    also when the run had returned a record. *)
Theorem batch_removes_scratch_file_then_raises
    (j : string) done (name content : string) rest w0 rs w path w1 r w2 :
  process_multiple_resumes env j done w0 = (Ret rs, w) ->
  write_temp env content w = (Ret path, w1) ->
  process_resume env j path name w1 = (r, w2) ->
  (forall e w3,
      r = Raise e ->
      remove_temp env path w2 = (Ret tt, w3) ->
      process_multiple_resumes env j (done ++ (name, content) :: rest)%list w0
      = (Raise e, w3))
  /\ (forall e' w3,
        remove_temp env path w2 = (Raise e', w3) ->
        process_multiple_resumes env j (done ++ (name, content) :: rest)%list w0
        = (Raise e', w3)).
Proof.
  intros Hdone Hwrite Hrun.
  assert (Hstep : process_multiple_resumes env j
                    (done ++ (name, content) :: rest)%list w0
                  = match remove_temp env path w2 with
                    | (Ret _, w3) =>
                        match r with
                        | Ret record =>
                            process_loop env j rest (rs ++ [record])%list w3
                        | Raise e => (Raise e, w3)
                        end
                    | (Raise e, w3) => (Raise e, w3)
                    end).
  { unfold process_multiple_resumes in *.
    rewrite process_loop_app, Hdone, process_loop_cons, Hwrite, Hrun.
    reflexivity. }
  split.
  - intros e w3 -> Hrm. rewrite Hstep, Hrm. reflexivity.
  - intros e' w3 Hrm. rewrite Hstep, Hrm. reflexivity.
Qed.

(** ** What a run never changes *)

Ltac same_identity :=
  repeat match goal with
         | |- context [match ?x with _ => _ end] => destruct x
         | |- context [if ?x then _ else _] => destruct x
         end;
  intros H; inversion H; subst; repeat split.

Lemma stages_keep_identity st w st' w' :
  call_node (load_resume env) st w = (Ret st', w')
  \/ call_node (extract_data env) st w = (Ret st', w')
  \/ call_node (match_jd env) st w = (Ret st', w')
  \/ call_node (score_candidate_node env) st w = (Ret st', w')
  \/ call_node (suggest_improvements env) st w = (Ret st', w') ->
  jd st' = jd st /\ resume_file_path st' = resume_file_path st
  /\ candidate_name st' = candidate_name st.
Proof.
  intros [H|[H|[H|[H|H]]]]; revert H.
  - rewrite load_resume_run. same_identity.
  - rewrite extract_data_run. same_identity.
  - rewrite match_jd_run. same_identity.
  - rewrite score_candidate_node_run. cbv zeta. same_identity.
  - rewrite suggest_improvements_run. same_identity.
Qed.

(** X16.  A run never changes the job description, the path of the resume
    or the candidate's name: the state it returns has those of the state it
    was started on. *)
Theorem run_keeps_identity st0 w stf wf :
  invoke (create_screening_workflow env) st0 w = (Ret stf, wf) ->
  jd stf = jd st0 /\ resume_file_path stf = resume_file_path st0
  /\ candidate_name stf = candidate_name st0.
Proof.
  rewrite invoke_run.
  destruct (call_node (load_resume env) st0 w) as [[s1|e] w1] eqn:H1;
    [| discriminate].
  destruct (call_node (extract_data env) s1 w1) as [[s2|e] w2] eqn:H2;
    [| discriminate].
  destruct (call_node (match_jd env) s2 w2) as [[s3|e] w3] eqn:H3;
    [| discriminate].
  destruct (call_node (score_candidate_node env) s3 w3) as [[s4|e] w4] eqn:H4;
    [| discriminate].
  destruct (stages_keep_identity _ _ _ _ (or_introl H1)) as (A1 & B1 & C1).
  destruct (stages_keep_identity _ _ _ _ (or_intror (or_introl H2)))
    as (A2 & B2 & C2).
  destruct (stages_keep_identity _ _ _ _
              (or_intror (or_intror (or_introl H3)))) as (A3 & B3 & C3).
  destruct (stages_keep_identity _ _ _ _
              (or_intror (or_intror (or_intror (or_introl H4)))))
    as (A4 & B4 & C4).
  assert (Hchain : jd s4 = jd st0 /\ resume_file_path s4 = resume_file_path st0
                   /\ candidate_name s4 = candidate_name st0).
  { repeat split; congruence. }
  destruct (py_lt (score s4) 50) as [[|]|e]; [| | discriminate].
  - intros H5.
    destruct (stages_keep_identity _ _ _ _
                (or_intror (or_intror (or_intror (or_intror H5)))))
      as (A5 & B5 & C5).
    destruct Hchain as (A & B & C). repeat split; congruence.
  - intros [= <- <-]. exact Hchain.
Qed.

(** ** A matching reply that is not an object *)

Lemma scoring_failed_fields (msg : string) :
  exists m : gmap string value,
    scoring_failed msg = VDict m
    /\ m !! "error" = Some (VStr msg)
    /\ m !! "score" = Some (VInt 0)
    /\ m !! "reasons" = Some (VList [VStr "Error in scoring"])
    /\ m !! "suggestions" = Some (VList []).
Proof.
  eexists. split; [reflexivity |]. repeat split; vm_compute; reflexivity.
Qed.

Lemma score_candidate_non_object (j : string) (rd v : value) w :
  (forall m, v <> VDict m) ->
  exists msg w', score_candidate env j rd v w = (Ret (scoring_failed msg), w').
Proof.
  intros Hv. rewrite score_candidate_run.
  unfold score_candidate_try, bind, lift_outcome.
  destruct (get_llm env w) as [[[]|e] w1].
  - rewrite (py_get_non_object _ _ _ Hv). eexists _, _. reflexivity.
  - eexists _, _. reflexivity.
Qed.

(** X17.  When the matching chain answers with something that is not an
    object and in which ["error"] is not found (a list or a text without
    it), the run does not return: the scoring wrapper absorbs the bad match
    result once, with score 0 and no suggestions, and SuggestImprovements
    then raises on asking it for its gaps. *)
Theorem non_object_matching_reply_raises
    (j path name : string) w pages w1 rd w2 v w3 :
  loader_load env path w = (Ret pages, w1) ->
  all_space (String.concat newline pages) = false ->
  extract_resume_data_try env (String.concat newline pages) w1 = (Ret rd, w2) ->
  py_in "error" rd = Ret false ->
  match_to_jd_try env j rd w2 = (Ret v, w3) ->
  py_in "error" v = Ret false ->
  (forall m, v <> VDict m) ->
  exists w4,
    invoke (create_screening_workflow env) (initial_state j path name) w
    = (Raise (AttributeError v), w4)
    /\ process_resume env j path name w = (Raise (AttributeError v), w4).
Proof.
  intros Hload Htext Htry2 Hin2 Htry3 Hin3 Hv.
  pose proof (load_resume_readable env j path name _ _ _ Hload Htext) as H1.
  set (s1 := with_error "" _) in H1.
  assert (H2 : call_node (extract_data env) s1 w1
               = (Ret (with_resume_data rd s1), w2)).
  { rewrite extract_data_run. unfold s1. project_state.
    change (truthy (VStr "")) with false. cbv iota.
    rewrite extract_resume_data_run, Htry2, Hin2. reflexivity. }
  assert (H3 : call_node (match_jd env) (with_resume_data rd s1) w2
               = (Ret (with_match_data v (with_resume_data rd s1)), w3)).
  { rewrite match_jd_run. unfold s1. project_state.
    change (truthy (VStr "")) with false. cbv iota.
    rewrite match_to_jd_run, Htry3, Hin3. reflexivity. }
  destruct (score_candidate_non_object j rd v w3 Hv) as (msg & w4 & Hsc).
  destruct (scoring_failed_fields msg) as (m & Hm & Me & Ms & Mr & Mg).
  assert (Hinv : invoke (create_screening_workflow env)
                        (initial_state j path name) w
                 = (Raise (AttributeError v), w4)).
  { rewrite invoke_run, H1, H2, H3, score_candidate_node_run.
    unfold s1. project_state.
    change (truthy (VStr "")) with false. cbv iota zeta.
    rewrite Hsc, Hm, Me, Ms, Mr, Mg.
    cbn [default]. project_state. cbn [py_lt].
    change (0 <? 50) with true. cbv iota.
    rewrite suggest_improvements_run. project_state.
    cbn [truthy]. rewrite (py_get_non_object _ _ _ Hv). reflexivity. }
  exists w4. split; [exact Hinv |].
  rewrite process_resume_run, Hinv. reflexivity.
Qed.

End Further2.

(** ** The front end *)

Lemma existsb_false_Forall {A} (p : A -> bool) (l : list A) :
  existsb p l = false -> Forall (fun x => p x = false) l.
Proof.
  induction l as [|x l IH]; cbn; [constructor |].
  intros H. apply orb_false_iff in H as [Hx Hl].
  constructor; [exact Hx | exact (IH Hl)].
Qed.

Lemma map_pair_id {A B} (l : list (A * B)) :
  map (fun f => (fst f, snd f)) l = l.
Proof. induction l as [|[a b] l IH]; cbn; [| rewrite IH]; reflexivity. Qed.

(** X14.  A click on "Screen Resumes" never raises, and shows one of four
    messages.  The batch runner is only run on at most 10 uploads of at most
    5 * 1024 * 1024 bytes each; more uploads, or a larger one, are turned away
    with the session and the world untouched.  "Screening complete" counts
    the uploads and stores one record per upload in the session; an exception
    out of the batch is shown as "Error during screening" and leaves the
    session's results as they were. *)
Theorem screen_button_outcomes {world : Type} (env : Env world)
    (jd_text : string) (resume_files : list (string * string))
    (session : option (list value)) (w : world) :
  exists msg session' w',
    on_screen_button env jd_text resume_files (session, w)
    = (Ret msg, (session', w'))
    /\ match msg with
       | TooManyResumes =>
           (10 < length resume_files)%nat /\ session' = session /\ w' = w
       | FileTooLarge =>
           (length resume_files <= 10)%nat
           /\ Exists (fun f => 5 * 1024 * 1024 < py_len (snd f)) resume_files
           /\ session' = session /\ w' = w
       | ScreeningComplete n =>
           (length resume_files <= 10)%nat
           /\ Forall (fun f => py_len (snd f) <= 5 * 1024 * 1024) resume_files
           /\ n = Z.of_nat (length resume_files)
           /\ exists rs,
                process_multiple_resumes env jd_text resume_files w
                = (Ret rs, w')
                /\ session' = Some rs
                /\ Forall2 is_record_of resume_files rs
       | ScreeningError e =>
           (length resume_files <= 10)%nat
           /\ Forall (fun f => py_len (snd f) <= 5 * 1024 * 1024) resume_files
           /\ process_multiple_resumes env jd_text resume_files w
              = (Raise e, w')
           /\ session' = session
       end.
Proof.
  unfold on_screen_button.
  destruct (Z.of_nat (length resume_files) >? 10) eqn:Hmany.
  { eexists _, _, _. split; [reflexivity |].
    apply Z.gtb_lt in Hmany. repeat split. lia. }
  assert (Hfew : (length resume_files <= 10)%nat).
  { rewrite Z.gtb_ltb in Hmany. apply Z.ltb_ge in Hmany. lia. }
  destruct (existsb _ resume_files) eqn:Hbig.
  { eexists _, _, _. split; [reflexivity |].
    split; [exact Hfew |]. split; [| split; reflexivity].
    apply existsb_exists in Hbig as (f & Hin & Hf).
    apply Exists_exists. exists f. split; [apply list_elem_of_In, Hin |].
    apply Z.gtb_lt in Hf. exact Hf. }
  assert (Hsmall : Forall (fun f => py_len (snd f) <= 5 * 1024 * 1024)
                          resume_files).
  { apply existsb_false_Forall in Hbig.
    eapply Forall_impl; [exact Hbig |].
    intros f Hf. cbv beta in Hf.
    rewrite Z.gtb_ltb in Hf. apply Z.ltb_ge in Hf. exact Hf. }
  rewrite map_pair_id. unfold try_except, bind, ret. cbn [fst snd].
  destruct (process_multiple_resumes env jd_text resume_files w)
    as [[rs|e] w'] eqn:Hrun.
  - pose proof (process_loop_records env _ _ _ _ _ _ Hrun)
      as (new & Hnew & Hrec).
    cbn [app] in Hnew. subst new.
    eexists _, _, _. split; [reflexivity |].
    split; [exact Hfew |]. split; [exact Hsmall |]. split.
    + f_equal. symmetry. exact (Forall2_length _ _ _ Hrec).
    + exists rs. repeat split. exact Hrec.
  - eexists _, _, _. split; [reflexivity |].
    split; [exact Hfew |]. split; [exact Hsmall |]. split; reflexivity.
Qed.

Lemma fit_of_ordered_number (s : value) :
  is_ordered_number s ->
  exists f,
    fit_status s = Ret f
    /\ is_strong s = Ret (match f with StrongFit => true | _ => false end)
    /\ is_moderate s = Ret (match f with ModerateFit => true | _ => false end)
    /\ is_weak s = Ret (match f with WeakFit => true | _ => false end).
Proof.
  unfold fit_status, is_strong, is_moderate, is_weak.
  destruct s as [|b|z|[q| | |]|t|l|m]; cbn [is_ordered_number py_ge py_lt];
    intros H; try contradiction.
  - exists WeakFit. destruct b; repeat split.
  - destruct (70 <=? z) eqn:H70; destruct (50 <=? z) eqn:H50;
      destruct (z <? 70) eqn:L70; destruct (z <? 50) eqn:L50;
      try (apply Z.leb_le in H70); try (apply Z.leb_gt in H70);
      try (apply Z.leb_le in H50); try (apply Z.leb_gt in H50);
      try (apply Z.ltb_lt in L70); try (apply Z.ltb_ge in L70);
      try (apply Z.ltb_lt in L50); try (apply Z.ltb_ge in L50);
      try lia;
      [exists StrongFit | exists ModerateFit | exists WeakFit];
      repeat split.
  - assert (Hmono : Qle_bool (inject_Z 70) q = true ->
                    Qle_bool (inject_Z 50) q = true).
    { intros H70. apply Qle_bool_iff. apply Qle_bool_iff in H70.
      apply (Qle_trans _ (inject_Z 70)); [| exact H70].
      rewrite <- Zle_Qle. lia. }
    destruct (Qle_bool (inject_Z 70) q) eqn:H70.
    + rewrite (Hmono eq_refl). exists StrongFit. repeat split.
    + destruct (Qle_bool (inject_Z 50) q) eqn:H50;
        [exists ModerateFit | exists WeakFit]; repeat split.
  - exists StrongFit. repeat split.
  - exists WeakFit. repeat split.
Qed.

(** X15.  For scores that are numbers other than NaN, every result falls in
    exactly one of the three classes, the one its "Status" label names, and
    the three counts of the "Fit Distribution" add up to the number of
    results.  (A NaN is labelled "Weak Fit" and counted in no class.) *)
Theorem fit_classes_partition (scores : list value) :
  Forall is_ordered_number scores ->
  Forall (fun s =>
            exists f,
              fit_status s = Ret f
              /\ is_strong s
                 = Ret (match f with StrongFit => true | _ => false end)
              /\ is_moderate s
                 = Ret (match f with ModerateFit => true | _ => false end)
              /\ is_weak s
                 = Ret (match f with WeakFit => true | _ => false end)) scores
  /\ (exists strong moderate weak,
        fit_distribution scores = Ret (strong, moderate, weak)
        /\ strong + moderate + weak = Z.of_nat (length scores))
  /\ fit_status (VFloat NaN) = Ret WeakFit
  /\ fit_distribution [VFloat NaN] = Ret (0, 0, 0).
Proof.
  intros Hnum. split; [| split; [| split; reflexivity]].
  - eapply Forall_impl; [exact Hnum |]. exact fit_of_ordered_number.
  - unfold fit_distribution.
    induction Hnum as [|s rest Hs Hrest IH].
    + exists 0, 0, 0. split; reflexivity.
    + destruct IH as (a & b & c & Hd & Hsum).
      destruct (fit_of_ordered_number s Hs) as (f & _ & Sa & Sb & Sc).
      cbn [count_if]. rewrite Sa, Sb, Sc.
      destruct (count_if is_strong rest) as [a'|e]; [| discriminate Hd].
      destruct (count_if is_moderate rest) as [b'|e]; [| discriminate Hd].
      destruct (count_if is_weak rest) as [c'|e]; [| discriminate Hd].
      injection Hd as <- <- <-.
      eexists _, _, _. split; [reflexivity |].
      cbn [length]. destruct f; lia.
Qed.

(** ** These theorems at work *)

Lemma load_resume_blank_or_unreadable_witness :
  Forall (fun page => all_space page = true) [" "; ""]
  /\ call_node (load_resume env_blank) fresh tt
     = (Ret (with_resume_text ""
               (with_error "Empty PDF or failed to extract text" fresh)), tt).
Proof.
  assert (H : Forall (fun page => all_space page = true) [" "; ""])
    by (repeat constructor).
  split; [exact H |].
  exact (proj1 (load_resume_blank_or_unreadable env_blank fresh tt)
               [" "; ""] tt eq_refl H).
Defined.

Lemma unreadable_resume_record_witness :
  process_resume env_blank "Needs Python, 3+ years" "resume.pdf" "alice.pdf" tt
  = (Ret (failure_record "alice.pdf" "Empty PDF or failed to extract text"),
     tt).
Proof.
  refine (proj2 (unreadable_resume_record env_blank _ _ _ tt)
                [" "; ""] tt eq_refl _).
  repeat constructor.
Defined.

Lemma extraction_failure_record_witness :
  process_resume env_extraction_timeout "Needs Python, 3+ years" "resume.pdf"
                 "alice.pdf" tt
  = (Ret (failure_record "alice.pdf" "Extraction error: timeout"), tt).
Proof.
  exact (extraction_failure_record env_extraction_timeout _ _ _ tt
           ["Python developer"] tt timeout tt eq_refl eq_refl eq_refl).
Defined.

Lemma missing_api_key_record_witness :
  process_resume env_no_key "Needs Python, 3+ years" "resume.pdf" "alice.pdf" tt
  = (Ret (failure_record "alice.pdf" ("Extraction error: " ++ key_not_found)),
     tt).
Proof.
  exact (missing_api_key_record env_35 (fun _ _ => None) (fun _ => ret tt)
           _ _ _ tt ["Python developer"] tt eq_refl eq_refl
           (or_introl eq_refl)).
Defined.

Lemma non_object_extraction_reply_witness :
  exists msg wf,
    process_resume env_extraction_number "Needs Python, 3+ years" "resume.pdf"
                   "alice.pdf" tt
    = (Ret (failure_record "alice.pdf" msg), wf)
    /\ (String.prefix "Data extraction error: " msg = true
        \/ String.prefix "Matching error: " msg = true).
Proof.
  apply (non_object_extraction_reply env_extraction_number _ _ _ tt
           ["Python developer"] tt (VInt 5) tt eq_refl eq_refl eq_refl).
  intros m H. discriminate H.
Defined.

Lemma match_jd_failure_tags_witness :
  error (with_resume_data a_profile
           (with_resume_text "Python developer" fresh)) = ""
  /\ exists st',
       call_node (match_jd env_matching_timeout)
                 (with_resume_data a_profile
                    (with_resume_text "Python developer" fresh)) tt
       = (Ret st', tt)
       /\ error st' = "Matching error: timeout".
Proof.
  split; [reflexivity |].
  destruct (match_jd_failure_tags env_matching_timeout
              (with_resume_data a_profile
                 (with_resume_text "Python developer" fresh)) tt eq_refl)
    as [H _].
  eexists. split; [exact (H timeout tt eq_refl) | reflexivity].
Defined.

Lemma weak_result_has_suggestions_witness :
  invoke (create_screening_workflow env_35) fresh tt = (Ret final_35, tt)
  /\ below 50 (score final_35)
  /\ truthy (suggestions final_35) = true.
Proof.
  assert (Hrun : invoke (create_screening_workflow env_35) fresh tt
                 = (Ret final_35, tt)) by (vm_compute; reflexivity).
  assert (Hlow : below 50 (score final_35)) by (apply below_int; lia).
  split; [exact Hrun |]. split; [exact Hlow |].
  exact (weak_result_has_suggestions env_35 _ _ _ _ Hrun Hlow).
Defined.

Lemma made_up_suggestions_are_one_to_three_witness :
  truthy (suggestions (with_score (VInt 35) matched)) = false
  /\ exists l,
       suggestions (with_suggestions three_suggestions
                      (with_score (VInt 35) matched)) = VList l
       /\ (1 <= length l <= 3)%nat.
Proof.
  split; [reflexivity |].
  assert (Hrun : call_node (suggest_improvements env_35)
                           (with_score (VInt 35) matched) tt
                 = (Ret (with_suggestions three_suggestions
                           (with_score (VInt 35) matched)), tt))
    by (vm_compute; reflexivity).
  destruct (made_up_suggestions_are_one_to_three env_35
              (with_score (VInt 35) matched) tt _ tt eq_refl Hrun)
    as (l & Hl & Hlen & _).
  exists l. split; [exact Hl | exact Hlen].
Defined.

Lemma clean_run_used_every_reply_witness :
  error final_35 = ""
  /\ exists pages,
       loader_load env_35 (resume_file_path fresh) tt = (Ret pages, tt)
       /\ all_space (String.concat newline pages) = false
       /\ extract_resume_data_try env_35 (String.concat newline pages) tt
          = (Ret (resume_data final_35), tt).
Proof.
  split; [reflexivity |].
  assert (Hrun : invoke (create_screening_workflow env_35) fresh tt
                 = (Ret final_35, tt)) by (vm_compute; reflexivity).
  destruct (clean_run_used_every_reply env_35 _ _ _ _ Hrun eq_refl)
    as (pages & [] & rd & [] & md & [] & m
        & Hload & Htext & Htry & _ & _ & _ & _ & _ & Hrd & _).
  exists pages. rewrite Hrd. repeat split; assumption.
Defined.

Lemma record_copies_final_state_witness :
  process_resume env_35 "Needs Python, 3+ years" "resume.pdf" "alice.pdf" tt
  = (Ret record_35, tt)
  /\ exists m : gmap string value,
       record_35 = VDict m /\ m !! "score" = Some (VInt 35)
       /\ m !! "error" = Some (VStr "").
Proof.
  assert (Hrec : process_resume env_35 "Needs Python, 3+ years" "resume.pdf"
                                "alice.pdf" tt = (Ret record_35, tt))
    by (vm_compute; reflexivity).
  split; [exact Hrec |].
  destruct (record_copies_final_state env_35 _ _ _ _ _ _ Hrec)
    as (stf & m & md & Hrun & Hm & _ & _ & Hs & _ & _ & _ & _ & He).
  change (initial_state "Needs Python, 3+ years" "resume.pdf" "alice.pdf")
    with fresh in Hrun.
  rewrite run_35 in Hrun. injection Hrun as <-.
  exists m. split; [exact Hm |]. split; [exact Hs | exact He].
Defined.

Lemma batch_removes_scratch_file_then_raises_witness :
  process_multiple_resumes env_percent "Needs Python, 3+ years"
                           ([] ++ two_uploads)%list tt
  = (Raise (NotOrdered (VStr "85%")), tt).
Proof.
  refine (proj1 (batch_removes_scratch_file_then_raises env_percent
                   "Needs Python, 3+ years" [] "alice.pdf" "%PDF-1.4 alice"
                   [("bob.pdf", "%PDF-1.4 bob")] tt [] tt "resume.pdf" tt
                   (Raise (NotOrdered (VStr "85%"))) tt
                   eq_refl eq_refl _)
                (NotOrdered (VStr "85%")) tt eq_refl eq_refl).
  vm_compute. reflexivity.
Defined.

Lemma fit_classes_partition_witness :
  Forall is_ordered_number [VInt 82; VInt 35; VFloat (Finite (61 # 1))]
  /\ exists strong moderate weak,
       fit_distribution [VInt 82; VInt 35; VFloat (Finite (61 # 1))]
       = Ret (strong, moderate, weak)
       /\ strong + moderate + weak = 3.
Proof.
  assert (H : Forall is_ordered_number
                     [VInt 82; VInt 35; VFloat (Finite (61 # 1))]).
  { repeat constructor. discriminate. }
  split; [exact H |].
  exact (proj1 (proj2 (fit_classes_partition _ H))).
Defined.

Lemma run_keeps_identity_witness :
  invoke (create_screening_workflow env_35) fresh tt = (Ret final_35, tt)
  /\ jd final_35 = jd fresh
  /\ resume_file_path final_35 = resume_file_path fresh
  /\ candidate_name final_35 = candidate_name fresh.
Proof.
  assert (Hrun : invoke (create_screening_workflow env_35) fresh tt
                 = (Ret final_35, tt)) by (vm_compute; reflexivity).
  split; [exact Hrun |].
  exact (run_keeps_identity env_35 _ _ _ _ Hrun).
Defined.

Lemma non_object_matching_reply_raises_witness :
  exists w4,
    invoke (create_screening_workflow env_matching_list)
           (initial_state "Needs Python, 3+ years" "resume.pdf" "alice.pdf") tt
    = (Raise (AttributeError (VList [VStr "Python"])), w4)
    /\ process_resume env_matching_list "Needs Python, 3+ years" "resume.pdf"
                      "alice.pdf" tt
       = (Raise (AttributeError (VList [VStr "Python"])), w4).
Proof.
  apply (non_object_matching_reply_raises env_matching_list _ _ _ tt
           ["Python developer"] tt a_profile tt (VList [VStr "Python"]) tt
           eq_refl eq_refl eq_refl).
  - vm_compute. reflexivity.
  - reflexivity.
  - reflexivity.
  - intros m H. discriminate H.
Defined.
